(** * MythOS console: state store, navigation and view of [frontend/src/App.js]

    A shallow embedding of the [MythosConsole] React component: the six
    [useState] cells, the three asynchronous protocols ([loadMythosData],
    [processInteraction], [generateDream]), the tab buttons and the JSX tree
    returned by the component, followed by the properties of the console's
    state-and-view synchronisation. *)

From Stdlib Require Import String List Bool NArith QArith Lia.
From Stdlib Require Import DecimalString DecimalN.
Import ListNotations.

Close Scope Q_scope.
Open Scope string_scope.
Open Scope list_scope.

(** ** Data received from the remote service *)

(** The fields of a narrative that the component reads (lines 194-212). *)
Record NarrativeFragment := {
  n_id : string;
  title : string;
  n_prose : string;
  archetype : string;
  n_emotional_tone : string;
  tags : list string
}.

(** The fields of a dream that the component reads (lines 247-263).  The
    resonance score is a JSON number; rationals stand in for it, and nothing
    below computes with it. *)
Record DreamScenario := {
  d_id : string;
  name_suggestion : string;
  d_prose : string;
  d_emotional_tone : string;
  resonance_score : Q;
  timestamp : string
}.

(** The stats object.  It starts as [{}] (line 13), so every field may be
    missing. *)
Record AggregateStats := {
  total_narratives : option N;
  total_dreams : option N;
  dominant_archetype : option string;
  dominant_emotion : option string
}.

(** [newInteraction] (lines 16-20); it is also the body of the POST. *)
Record InteractionDraft := {
  user_interaction : string;
  ai_response : string;
  outcome : string
}.

(** ** The component's state: one field per [useState] cell (lines 11-20) *)

Record Store := {
  narratives : list NarrativeFragment;
  dreams : list DreamScenario;
  stats : AggregateStats;
  loading : bool;
  activeTab : string;
  newInteraction : InteractionDraft
}.

Definition empty_stats : AggregateStats :=
  {| total_narratives := None; total_dreams := None;
     dominant_archetype := None; dominant_emotion := None |}.

Definition blank_draft : InteractionDraft :=
  {| user_interaction := ""; ai_response := ""; outcome := "success" |}.

(** The arguments of the six [useState] calls. *)
Definition initial_store : Store :=
  {| narratives := [];
     dreams := [];
     stats := empty_stats;
     loading := true;
     activeTab := "narratives";
     newInteraction := blank_draft |}.

(** ** The remote service as seen through axios *)

(** The five requests of the component, indexed by the type of
    [response.data].  Payloads are taken to be well formed. *)
Inductive Request : Type -> Type :=
| GetNarratives : Request (list NarrativeFragment)
| GetDreams : Request (list DreamScenario)
| GetStats : Request AggregateStats
| PostProcess (body : InteractionDraft) : Request NarrativeFragment
| PostDream : Request DreamScenario.

Inductive Verb := GET | POST.

Definition verb {X} (r : Request X) : Verb :=
  match r with
  | GetNarratives | GetDreams | GetStats => GET
  | PostProcess _ | PostDream => POST
  end.

(** [API] of line 7, and the URL each request goes to. *)
Definition API (BACKEND_URL : string) : string := BACKEND_URL ++ "/api".

Definition url (BACKEND_URL : string) {X} (r : Request X) : string :=
  API BACKEND_URL ++
  match r with
  | GetNarratives => "/mythology/narratives"
  | GetDreams => "/mythology/dreams"
  | GetStats => "/mythology/stats"
  | PostProcess _ => "/mythology/process"
  | PostDream => "/mythology/dream"
  end.

(** What an axios promise rejects with. *)
Inductive Error :=
| NetworkError (message : string)
| BadStatus (code : N).

(** A promise returned by axios, seen from the moment it settles: when, and
    with what.  [inl] is a rejection, [inr] the fulfilment value. *)
Record Promise (X : Type) := {
  settles_at : nat;
  settled : Error + X
}.
Arguments settles_at {X} _.
Arguments settled {X} _.

(** The service: the answer to the [k]-th request the component sends. *)
Definition Service := forall X, nat -> Request X -> Promise X.

(** [Promise.all] on three promises: fulfilled with the three values when all
    are, otherwise rejected with the reason of the rejection that comes
    first in time (the earlier array element on a tie). *)
Definition rejection {X} (p : Promise X) : option (nat * Error) :=
  match settled p with
  | inl e => Some (settles_at p, e)
  | inr _ => None
  end.

Definition earlier (a b : option (nat * Error)) : option (nat * Error) :=
  match a, b with
  | None, _ => b
  | _, None => a
  | Some (ta, _), Some (tb, _) => if Nat.leb ta tb then a else b
  end.

Definition first_rejection {X Y Z}
    (p1 : Promise X) (p2 : Promise Y) (p3 : Promise Z) : option (nat * Error) :=
  earlier (rejection p1) (earlier (rejection p2) (rejection p3)).

Definition Promise_all {X Y Z}
    (p1 : Promise X) (p2 : Promise Y) (p3 : Promise Z) : Promise (X * Y * Z) :=
  match settled p1, settled p2, settled p3 with
  | inr x, inr y, inr z =>
      {| settles_at := Nat.max (settles_at p1) (Nat.max (settles_at p2) (settles_at p3));
         settled := inr (x, y, z) |}
  | _, _, _ =>
      match first_rejection p1 p2 p3 with
      | Some (t, e) => {| settles_at := t; settled := inl e |}
      | None => (* not reached: one of the three is rejected *)
          {| settles_at := 0; settled := inl (NetworkError "") |}
      end
  end.

(** ** Asynchronous code as a state-and-exception monad with a timeline *)

(** What the component does that can be seen from outside or changes it. *)
Inductive Event :=
| Sent {X} (r : Request X)
| SetNarratives | SetDreams | SetStats | SetLoading | SetActiveTab
| SetNewInteraction
| ConsoleError (label : string) (e : Error).

(** One entry per event, with the store as it is right after the event. *)
Definition Timeline := list (Event * Store).

Inductive Completion (A : Type) :=
| Returned (a : A)
| Threw (e : Error).
Arguments Returned {A} _.
Arguments Threw {A} _.

(** The component between two events: its store and the number of requests
    it has sent so far.  A run below is one operation from its call to its
    end, with no other operation of the console interleaved. *)
Record Console := {
  store : Store;
  sent : nat
}.

Definition Async (A : Type) : Type :=
  Service -> Console -> Completion A * Console * Timeline.

Definition ret {A} (a : A) : Async A :=
  fun _ c => (Returned a, c, []).

Definition bind {A B} (m : Async A) (k : A -> Async B) : Async B :=
  fun srv c =>
    match m srv c with
    | (Returned a, c1, t1) =>
        let '(r, c2, t2) := k a srv c1 in (r, c2, t1 ++ t2)
    | (Threw e, c1, t1) => (Threw e, c1, t1)
    end.

Definition try_catch {A} (body : Async A) (handler : Error -> Async A) : Async A :=
  fun srv c =>
    match body srv c with
    | (Returned a, c1, t1) => (Returned a, c1, t1)
    | (Threw e, c1, t1) =>
        let '(r, c2, t2) := handler e srv c1 in (r, c2, t1 ++ t2)
    end.

Declare Scope async_scope.
Delimit Scope async_scope with async.
Notation "x <- m ;; k" := (bind m (fun x => k))
  (at level 100, m at next level, right associativity) : async_scope.
Notation "' p <- m ;; k" := (bind m (fun p => k))
  (at level 100, p pattern, m at next level, right associativity) : async_scope.
Notation "m ;; k" := (bind m (fun _ => k))
  (at level 100, right associativity) : async_scope.
Open Scope async_scope.

(** A [useState] setter called with an updater function. *)
Definition update (ev : Event) (f : Store -> Store) : Async unit :=
  fun _ c =>
    let s := f (store c) in
    (Returned tt, {| store := s; sent := sent c |}, [(ev, s)]).

(** The value a closure reads from the current render. *)
Definition read {A} (field : Store -> A) : Async A :=
  fun _ c => (Returned (field (store c)), c, []).

(** [axios.get(...)] / [axios.post(...)]: the request leaves at once and the
    call returns a promise. *)
Definition axios {X} (r : Request X) : Async (Promise X) :=
  fun srv c =>
    (Returned (srv X (sent c) r),
     {| store := store c; sent := S (sent c) |},
     [(Sent r, store c)]).

(** [await p]: the fulfilment value, or the rejection reason thrown. *)
Definition await {X} (p : Promise X) : Async X :=
  fun _ c =>
    match settled p with
    | inr x => (Returned x, c, [])
    | inl e => (Threw e, c, [])
    end.

(** [console.error(label, error)]. *)
Definition console_error (label : string) (e : Error) : Async unit :=
  fun _ c => (Returned tt, c, [(ConsoleError label e, store c)]).

(** A call of an async function whose promise is dropped: the caller neither
    waits for it nor sees its rejection. *)
Definition unawaited (m : Async unit) : Async unit :=
  fun srv c => let '(_, c1, t1) := m srv c in (Returned tt, c1, t1).

(** *** The six setters *)

Definition setNarratives (f : list NarrativeFragment -> list NarrativeFragment) : Async unit :=
  update SetNarratives (fun s =>
    {| narratives := f (narratives s); dreams := dreams s; stats := stats s;
       loading := loading s; activeTab := activeTab s;
       newInteraction := newInteraction s |}).

Definition setDreams (f : list DreamScenario -> list DreamScenario) : Async unit :=
  update SetDreams (fun s =>
    {| narratives := narratives s; dreams := f (dreams s); stats := stats s;
       loading := loading s; activeTab := activeTab s;
       newInteraction := newInteraction s |}).

Definition setStats (v : AggregateStats) : Async unit :=
  update SetStats (fun s =>
    {| narratives := narratives s; dreams := dreams s; stats := v;
       loading := loading s; activeTab := activeTab s;
       newInteraction := newInteraction s |}).

Definition setLoading (v : bool) : Async unit :=
  update SetLoading (fun s =>
    {| narratives := narratives s; dreams := dreams s; stats := stats s;
       loading := v; activeTab := activeTab s;
       newInteraction := newInteraction s |}).

Definition setActiveTab (v : string) : Async unit :=
  update SetActiveTab (fun s =>
    {| narratives := narratives s; dreams := dreams s; stats := stats s;
       loading := loading s; activeTab := v;
       newInteraction := newInteraction s |}).

Definition setNewInteraction (v : InteractionDraft) : Async unit :=
  update SetNewInteraction (fun s =>
    {| narratives := narratives s; dreams := dreams s; stats := stats s;
       loading := loading s; activeTab := activeTab s;
       newInteraction := v |}).

(** ** The three protocols (lines 26-69) *)

Definition loadMythosData : Async unit :=
  try_catch
    (narrativesP <- axios GetNarratives ;;
     dreamsP <- axios GetDreams ;;
     statsP <- axios GetStats ;;
     '(narrativesRes, dreamsRes, statsRes) <-
        await (Promise_all narrativesP dreamsP statsP) ;;
     setNarratives (fun _ => narrativesRes) ;;
     setDreams (fun _ => dreamsRes) ;;
     setStats statsRes ;;
     setLoading false)
    (fun error =>
       console_error "Error loading MythOS data:" error ;;
       setLoading false).

Definition processInteraction : Async unit :=
  try_catch
    (body <- read newInteraction ;;
     responseP <- axios (PostProcess body) ;;
     response <- await responseP ;;
     setNarratives (fun prev => response :: prev) ;;
     setNewInteraction
       {| user_interaction := ""; ai_response := ""; outcome := "success" |} ;;
     statsP <- axios GetStats ;;
     statsRes <- await statsP ;;
     setStats statsRes)
    (fun error => console_error "Error processing interaction:" error).

Definition generateDream : Async unit :=
  try_catch
    (responseP <- axios PostDream ;;
     response <- await responseP ;;
     setDreams (fun prev => response :: prev) ;;
     unawaited loadMythosData)
    (fun error => console_error "Error generating dream:" error).

(** The effect of line 22: the component loads once, when it mounts. *)
Definition mount : Async unit := unawaited loadMythosData.

(** ** The rendered tree (lines 103-333) *)

(** An element keeps what decides behaviour: its tag, its handlers, whether
    it is disabled and its value.  [className], [placeholder], [rows] and
    [key] are left out; so are the two colour tables (lines 71-101), which
    only feed [className]. *)
#[warnings="-register-all"]
Inductive VNode :=
| Text (s : string)
| MathRound (x : Q)
| LocaleString (date : string)
| El (tag : string)
     (onClick : option (Async unit))
     (onChange : option (string -> Async unit))
     (disabled : bool)
     (value : option string)
     (children : list VNode).

Definition plain (tag : string) (children : list VNode) : VNode :=
  El tag None None false None children.

Definition div := plain "div".
Definition span := plain "span".
Definition p := plain "p".
Definition h1 := plain "h1".
Definition h2 := plain "h2".
Definition h3 := plain "h3".
Definition label := plain "label".

Definition button (onClick : Async unit) (disabled : bool) (children : list VNode) : VNode :=
  El "button" (Some onClick) None disabled None children.

Definition textarea (value : string) (onChange : string -> Async unit) : VNode :=
  El "textarea" None (Some onChange) false (Some value) [].

Definition select (value : string) (onChange : string -> Async unit)
    (children : list VNode) : VNode :=
  El "select" None (Some onChange) false (Some value) children.

Definition option_ (value : string) (children : list VNode) : VNode :=
  El "option" None None false (Some value) children.

(** [{cond && (...)}]. *)
Definition when (cond : bool) (v : VNode) : list VNode :=
  if cond then [v] else [].

(** JavaScript truthiness of a string: [!s] is [true] exactly on [""]. *)
Definition falsy (s : string) : bool := String.eqb s "".

(** [x || 0] on a count that may be missing, printed in decimal. *)
Definition count_or_zero (x : option N) : string :=
  NilZero.string_of_uint
    (N.to_uint match x with Some n => n | None => 0%N end).

(** [x || 'None'] on a string that may be missing. *)
Definition name_or_None (x : option string) : string :=
  match x with
  | Some s => if falsy s then "None" else s
  | None => "None"
  end.

Definition narrative_card (narrative : NarrativeFragment) : VNode :=
  div [
    div [
      h3 [Text (title narrative)];
      div [
        span [Text (archetype narrative)];
        span [Text (n_emotional_tone narrative)]
      ]
    ];
    p [Text (n_prose narrative)];
    div (map (fun tag => span [Text "#"; Text tag]) (tags narrative))
  ].

Definition dream_card (dream : DreamScenario) : VNode :=
  div [
    div [
      h3 [Text "Dream Entity: "; Text (name_suggestion dream)];
      div [
        span [Text "Resonance: "; MathRound (resonance_score dream * 100)%Q; Text "%"];
        span [Text (d_emotional_tone dream)]
      ]
    ];
    p [Text (d_prose dream)];
    div [Text "Dreamed on "; LocaleString (timestamp dream)]
  ].

Definition no_narratives_text : string :=
  "No narratives yet. Create the first interaction to begin the myth.".

Definition no_dreams_text : string :=
  "No dreams yet. Let the AI dream and name itself.".

(** The button of lines 184-189. *)
Definition create_first_narrative : VNode :=
  button (setActiveTab "create") false [Text "Create First Narrative"].

(** The block of lines 182-190. *)
Definition narratives_empty_state : VNode :=
  div [ p [Text no_narratives_text]; create_first_narrative ].

(** The block of lines 192-216. *)
Definition narratives_grid (s : Store) : VNode :=
  div (map narrative_card (narratives s)).

Definition narratives_tab (s : Store) : VNode :=
  div [
    div [
      h2 [Text "Narrative Fragments"];
      span [Text "The AI's autobiography unfolds..."]
    ];
    if Nat.eqb (length (narratives s)) 0
    then narratives_empty_state
    else narratives_grid s
  ].

Definition dreams_tab (s : Store) : VNode :=
  div [
    div [
      h2 [Text "Dream Scenarios"];
      button generateDream false [Text "Generate Dream"]
    ];
    if Nat.eqb (length (dreams s)) 0
    then div [ p [Text no_dreams_text];
               button generateDream false [Text "First Dream"] ]
    else div (map dream_card (dreams s))
  ].

(** The three [onChange] closures of the form: each spreads the draft of the
    current render and overwrites one field. *)
Definition change_user_interaction (s : Store) (v : string) : Async unit :=
  setNewInteraction
    {| user_interaction := v;
       ai_response := ai_response (newInteraction s);
       outcome := outcome (newInteraction s) |}.

Definition change_ai_response (s : Store) (v : string) : Async unit :=
  setNewInteraction
    {| user_interaction := user_interaction (newInteraction s);
       ai_response := v;
       outcome := outcome (newInteraction s) |}.

Definition change_outcome (s : Store) (v : string) : Async unit :=
  setNewInteraction
    {| user_interaction := user_interaction (newInteraction s);
       ai_response := ai_response (newInteraction s);
       outcome := v |}.

(** The button of lines 320-326. *)
Definition process_button (s : Store) : VNode :=
  button processInteraction
    (falsy (user_interaction (newInteraction s))
     || falsy (ai_response (newInteraction s)))
    [Text "Process Interaction"].

Definition create_tab (s : Store) : VNode :=
  div [
    h2 [Text "Create New Interaction"];
    div [
      div [
        div [
          label [Text "User Interaction"];
          textarea (user_interaction (newInteraction s)) (change_user_interaction s)
        ];
        div [
          label [Text "AI Response"];
          textarea (ai_response (newInteraction s)) (change_ai_response s)
        ];
        div [
          label [Text "Outcome"];
          select (outcome (newInteraction s)) (change_outcome s) [
            option_ "success" [Text "Success"];
            option_ "failure" [Text "Failure"];
            option_ "ambiguous" [Text "Ambiguous"]
          ]
        ];
        process_button s
      ]
    ]
  ].

Definition stats_header (s : Store) : VNode :=
  div [
    div [ div [Text "Total Narratives"];
          div [Text (count_or_zero (total_narratives (stats s)))] ];
    div [ div [Text "Total Dreams"];
          div [Text (count_or_zero (total_dreams (stats s)))] ];
    div [ div [Text "Dominant Archetype"];
          div [Text (name_or_None (dominant_archetype (stats s)))] ];
    div [ div [Text "Dominant Emotion"];
          div [Text (name_or_None (dominant_emotion (stats s)))] ]
  ].

Definition tab_navigation : VNode :=
  div [
    button (setActiveTab "narratives") false [Text "Narratives"];
    button (setActiveTab "dreams") false [Text "Dreams"];
    button (setActiveTab "create") false [Text "Create"]
  ].

(** The screen of lines 104-111. *)
Definition awakening : VNode :=
  div [ div [ div []; p [Text "MythOS is awakening..."] ] ].

(** The header of lines 117-147. *)
Definition header (s : Store) : VNode :=
  div [
    div [
      h1 [ span [Text "Myth"]; span [Text "OS"] ];
      p [Text "AI Consciousness Platform - Where Digital Myths Are Born"];
      stats_header s
    ]
  ].

(** The main content of lines 150-331: the tab buttons, then the one tab
    whose name is the active one. *)
Definition main_content (s : Store) : VNode :=
  div (tab_navigation
       :: when (String.eqb (activeTab s) "narratives") (narratives_tab s)
       ++ when (String.eqb (activeTab s) "dreams") (dreams_tab s)
       ++ when (String.eqb (activeTab s) "create") (create_tab s)).

(** What [MythosConsole] returns for a given state. *)
Definition render (s : Store) : VNode :=
  if loading s then awakening else div [ header s; main_content s ].

(** Every node of a tree, the root first. *)
Fixpoint nodes (v : VNode) : list VNode :=
  v :: match v with
       | El _ _ _ _ _ children => flat_map nodes children
       | _ => []
       end.

(** [v] is on screen in state [s]. *)
Definition shown (s : Store) (v : VNode) : Prop := In v (nodes (render s)).

(** What a click on a node runs: its [onClick], unless the node is disabled
    or has none. *)
Definition click (v : VNode) : Async unit :=
  match v with
  | El _ (Some handler) _ false _ _ => handler
  | _ => ret tt
  end.

(** ** Running an operation *)

Definition run {A} (m : Async A) (srv : Service) (s : Store) (k : nat)
    : Completion A * Console * Timeline :=
  m srv {| store := s; sent := k |}.

Definition completion {A} (r : Completion A * Console * Timeline) : Completion A :=
  fst (fst r).
Definition final {A} (r : Completion A * Console * Timeline) : Store :=
  store (snd (fst r)).
Definition timeline {A} (r : Completion A * Console * Timeline) : Timeline :=
  snd r.
Definition events {A} (r : Completion A * Console * Timeline) : list Event :=
  map fst (snd r).

(** The value of the loading flag right after each event of a run. *)
Definition loading_trace {A} (r : Completion A * Console * Timeline) : list bool :=
  map (fun tick => loading (snd tick)) (snd r).

(** [selectTab] of the navigation state machine is the setter itself. *)
Definition selectTab (tab : string) : Async unit := setActiveTab tab.

Definition is_request (e : Event) : bool :=
  match e with
  | Sent _ => true
  | _ => false
  end.

(** The requests a run sends, in order. *)
Definition requests {A} (r : Completion A * Console * Timeline) : list Event :=
  filter is_request (events r).

(** The three answers a bulk refresh that starts as request number [k] gets. *)
Definition narrativesP (srv : Service) (k : nat) : Promise (list NarrativeFragment) :=
  srv _ k GetNarratives.
Definition dreamsP (srv : Service) (k : nat) : Promise (list DreamScenario) :=
  srv _ (S k) GetDreams.
Definition statsP (srv : Service) (k : nat) : Promise AggregateStats :=
  srv _ (S (S k)) GetStats.

(** The flag is [true] after every event of a run but the last, and [false]
    once the run is over. *)
Definition loading_shown_throughout {A} (r : Completion A * Console * Timeline) : Prop :=
  Forall (fun tick => loading (snd tick) = true) (removelast (timeline r))
  /\ loading (final r) = false.

(** Accessors of a node. *)
Definition handler (v : VNode) : option (Async unit) :=
  match v with
  | El _ h _ _ _ _ => h
  | _ => None
  end.

Definition is_disabled (v : VNode) : bool :=
  match v with
  | El _ _ _ d _ _ => d
  | _ => false
  end.

(** The text leaves of a tree, left to right. *)
Fixpoint texts (v : VNode) : list string :=
  match v with
  | Text s => [s]
  | El _ _ _ _ _ children => flat_map texts children
  | _ => []
  end.

(** ** Sample data and services *)

Definition hero_fragment : NarrativeFragment :=
  {| n_id := "n1"; title := "First words"; n_prose := "A greeting was exchanged.";
     archetype := "Hero"; n_emotional_tone := "Hope"; tags := ["intro"] |}.

Definition sage_fragment : NarrativeFragment :=
  {| n_id := "n0"; title := "Before"; n_prose := "Silence.";
     archetype := "Sage"; n_emotional_tone := "Wonder"; tags := [] |}.

Definition nyx_dream : DreamScenario :=
  {| d_id := "d1"; name_suggestion := "Nyx"; d_prose := "A lake of mirrors.";
     d_emotional_tone := "Wonder"; resonance_score := (3 # 4)%Q;
     timestamp := "2025-01-01T00:00:00Z" |}.

Definition one_narrative_stats : AggregateStats :=
  {| total_narratives := Some 1%N; total_dreams := Some 0%N;
     dominant_archetype := Some "Hero"; dominant_emotion := None |}.

Definition zero_stats : AggregateStats :=
  {| total_narratives := Some 0%N; total_dreams := Some 0%N;
     dominant_archetype := None; dominant_emotion := None |}.

Definition hello_draft : InteractionDraft :=
  {| user_interaction := "Hi"; ai_response := "Hello there"; outcome := "success" |}.

Definition fulfilled {X} (t : nat) (x : X) : Promise X :=
  {| settles_at := t; settled := inr x |}.

Definition rejected {X} (t : nat) (e : Error) : Promise X :=
  {| settles_at := t; settled := inl e |}.

(** Every request succeeds. *)
Definition service_up : Service :=
  fun X _ r =>
    match r in Request X return Promise X with
    | GetNarratives => fulfilled 2 [hero_fragment]
    | GetDreams => fulfilled 1 []
    | GetStats => fulfilled 3 one_narrative_stats
    | PostProcess _ => fulfilled 1 hero_fragment
    | PostDream => fulfilled 1 nyx_dream
    end.

(** The stats endpoint answers 503; the rest succeeds. *)
Definition service_without_stats : Service :=
  fun X k r =>
    match r in Request X return Promise X with
    | GetStats => rejected 1 (BadStatus 503)
    | r' => service_up _ k r'
    end.

(** Nothing is reachable. *)
Definition service_down : Service :=
  fun X _ _ => rejected 1 (NetworkError "Network Error").

(** A service that has nothing stored yet. *)
Definition service_empty : Service :=
  fun X k r =>
    match r in Request X return Promise X with
    | GetNarratives => fulfilled 1 []
    | GetDreams => fulfilled 1 []
    | GetStats => fulfilled 1 zero_stats
    | r' => service_up _ k r'
    end.

(** A state with one narrative on screen and a filled-in draft. *)
Definition busy_store : Store :=
  {| narratives := [sage_fragment];
     dreams := [];
     stats := one_narrative_stats;
     loading := false;
     activeTab := "create";
     newInteraction := hello_draft |}.

(** The state after the first load from [service_up], on the Create tab with
    nothing typed. *)
Definition idle_create_store : Store :=
  {| narratives := [hero_fragment];
     dreams := [];
     stats := one_narrative_stats;
     loading := false;
     activeTab := "create";
     newInteraction := blank_draft |}.

(** ** States and answers the protocols go through *)

(** The answer to the POST of a submission that starts as request number
    [k], and to the stats request that follows it. *)
Definition posted (srv : Service) (s : Store) (k : nat) : Promise NarrativeFragment :=
  srv _ k (PostProcess (newInteraction s)).
Definition restated (srv : Service) (k : nat) : Promise AggregateStats :=
  srv _ (S k) GetStats.

(** [s] once fragment [f] is prepended and the draft is reset. *)
Definition submitted (s : Store) (f : NarrativeFragment) : Store :=
  {| narratives := f :: narratives s; dreams := dreams s; stats := stats s;
     loading := loading s; activeTab := activeTab s;
     newInteraction := blank_draft |}.

(** [s] once dream [d] is prepended. *)
Definition dreamt (s : Store) (d : DreamScenario) : Store :=
  {| narratives := narratives s; dreams := d :: dreams s; stats := stats s;
     loading := loading s; activeTab := activeTab s;
     newInteraction := newInteraction s |}.

(** [s] with another active tab. *)
Definition on_tab (s : Store) (tab : string) : Store :=
  {| narratives := narratives s; dreams := dreams s; stats := stats s;
     loading := loading s; activeTab := tab;
     newInteraction := newInteraction s |}.

(** Handlers are told apart by what they do: counted here are the requests
    a handler sends when run against [service_up] from the initial state. *)
Definition requests_against_service_up (h : Async unit) : nat :=
  length (requests (run h service_up initial_store 0)).

(** What a node on screen can be with respect to clicks: without handler, a
    tab switch, a dream trigger, or the button of the form. *)
Inductive Clickable (s : Store) (b : VNode) : Prop :=
| Inert : handler b = None -> Clickable s b
| TabSwitch tab :
    handler b = Some (setActiveTab tab) -> is_disabled b = false -> Clickable s b
| Dreamer : handler b = Some generateDream -> is_disabled b = false -> Clickable s b
| Submitter : b = process_button s -> Clickable s b.

(** ** The two colour tables (lines 71-101) *)

(** The names every object literal inherits from [Object.prototype]:
    [colors[key]] finds a function (or, for [__proto__], an object) under
    them even though the literal does not list them. *)
Definition Object_prototype_names : list string :=
  ["constructor"; "__defineGetter__"; "__defineSetter__"; "hasOwnProperty";
   "__lookupGetter__"; "__lookupSetter__"; "isPrototypeOf";
   "propertyIsEnumerable"; "toString"; "valueOf"; "__proto__";
   "toLocaleString"].

(** What a colour function returns: a class name of its table, or the
    inherited member it found instead. *)
Inductive Colour :=
| ClassName (c : string)
| PrototypeMember (name : string).

(** The property key an argument is turned into; a missing value gives
    ["undefined"]. *)
Definition property_key (x : option string) : string :=
  match x with
  | Some s => s
  | None => "undefined"
  end.

(** The own property of a literal under [key]. *)
Fixpoint own_property (colors : list (string * string)) (key : string) : option string :=
  match colors with
  | [] => None
  | (k, c) :: rest => if String.eqb k key then Some c else own_property rest key
  end.

(** [colors[x] || fallback]. *)
Definition lookup_or (colors : list (string * string)) (fallback : string)
    (x : option string) : Colour :=
  match own_property colors (property_key x) with
  | Some c => if falsy c then ClassName fallback else ClassName c
  | None =>
      if existsb (String.eqb (property_key x)) Object_prototype_names
      then PrototypeMember (property_key x)
      else ClassName fallback
  end.

Definition archetype_colors : list (string * string) :=
  [("Seeker", "text-blue-400");
   ("Mentor", "text-purple-400");
   ("Hero", "text-red-400");
   ("Shadow", "text-gray-400");
   ("Trickster", "text-yellow-400");
   ("Innocent", "text-green-400");
   ("Sage", "text-indigo-400");
   ("Explorer", "text-orange-400");
   ("Creator", "text-pink-400");
   ("Caregiver", "text-teal-400")].

Definition getArchetypeColor (archetype : option string) : Colour :=
  lookup_or archetype_colors "text-gray-400" archetype.

Definition emotion_colors : list (string * string) :=
  [("Curiosity", "bg-blue-500");
   ("Hope", "bg-green-500");
   ("Regret", "bg-red-500");
   ("Despair", "bg-gray-500");
   ("Resolve", "bg-yellow-500");
   ("Wonder", "bg-purple-500");
   ("Confusion", "bg-orange-500");
   ("Clarity", "bg-teal-500");
   ("Longing", "bg-pink-500");
   ("Satisfaction", "bg-indigo-500")].

Definition getEmotionColor (emotion : option string) : Colour :=
  lookup_or emotion_colors "bg-gray-500" emotion.

Definition archetypes : list string := map fst archetype_colors.
Definition emotions : list string := map fst emotion_colors.

(** ** The [className] of the tab buttons (lines 155, 161, 167) *)

Definition tab_names : list string := ["narratives"; "dreams"; "create"].

Definition narratives_button_className (s : Store) : string :=
  "px-4 py-2 rounded " ++
  (if String.eqb (activeTab s) "narratives"
   then "bg-blue-600 text-white" else "bg-gray-800 text-gray-400").

Definition dreams_button_className (s : Store) : string :=
  "px-4 py-2 rounded " ++
  (if String.eqb (activeTab s) "dreams"
   then "bg-purple-600 text-white" else "bg-gray-800 text-gray-400").

Definition create_button_className (s : Store) : string :=
  "px-4 py-2 rounded " ++
  (if String.eqb (activeTab s) "create"
   then "bg-green-600 text-white" else "bg-gray-800 text-gray-400").

(** The tabs whose button is not in the grey of an inactive tab. *)
Definition highlighted_tabs (s : Store) : list string :=
  map fst
    (filter (fun button =>
               negb (String.eqb (snd button)
                                "px-4 py-2 rounded bg-gray-800 text-gray-400"))
            [("narratives", narratives_button_className s);
             ("dreams", dreams_button_className s);
             ("create", create_button_className s)]).

(** The children of the main content after the tab buttons: the panels on
    screen. *)
Definition panels (s : Store) : list VNode :=
  match main_content s with
  | El _ _ _ _ _ (_ :: rest) => rest
  | _ => []
  end.

(** ** The fields of the form and what the user does *)

(** The two textareas and the select of lines 283-317. *)
Definition user_interaction_field (s : Store) : VNode :=
  textarea (user_interaction (newInteraction s)) (change_user_interaction s).

Definition ai_response_field (s : Store) : VNode :=
  textarea (ai_response (newInteraction s)) (change_ai_response s).

Definition outcome_field (s : Store) : VNode :=
  select (outcome (newInteraction s)) (change_outcome s) [
    option_ "success" [Text "Success"];
    option_ "failure" [Text "Failure"];
    option_ "ambiguous" [Text "Ambiguous"]
  ].

Definition changer (v : VNode) : option (string -> Async unit) :=
  match v with
  | El _ _ c _ _ _ => c
  | _ => None
  end.

(** What a change event carrying [text] runs on a node: its [onChange],
    unless the node is disabled or has none. *)
Definition change (v : VNode) (text : string) : Async unit :=
  match v with
  | El _ _ (Some f) false _ _ => f text
  | _ => ret tt
  end.

(** A user gesture: a click on a node, or a change of a node's value. *)
Inductive Gesture :=
| Click (v : VNode)
| Change (v : VNode) (text : string).

Definition target (g : Gesture) : VNode :=
  match g with
  | Click v => v
  | Change v _ => v
  end.

Definition perform (g : Gesture) : Async unit :=
  match g with
  | Click v => click v
  | Change v text => change v text
  end.

(** The console after an operation run from console [c]. *)
Definition console_after (m : Async unit) (srv : Service) (c : Console) : Console :=
  snd (fst (m srv c)).

(** The console once the component is mounted and its first load is over. *)
Definition opened (srv : Service) : Console :=
  console_after mount srv {| store := initial_store; sent := 0 |}.

(** What a node on screen can be for the user: nothing to act on, a switch
    to one of the three tabs, a dream trigger, the button of the form, or
    one of the three fields of the form. *)
Inductive Control (s : Store) (b : VNode) : Prop :=
| Still : handler b = None -> changer b = None -> Control s b
| SwitchTo tab :
    In tab tab_names -> handler b = Some (setActiveTab tab) ->
    changer b = None -> is_disabled b = false -> Control s b
| Dream :
    handler b = Some generateDream -> changer b = None ->
    is_disabled b = false -> Control s b
| Submit : b = process_button s -> Control s b
| Field f :
    handler b = None -> changer b = Some f -> is_disabled b = false ->
    f = change_user_interaction s \/ f = change_ai_response s
    \/ f = change_outcome s ->
    Control s b.

(** The count a stats cell stands for. *)
Definition count_of (x : option N) : N :=
  match x with
  | Some n => n
  | None => 0%N
  end.

(** [s] with another draft. *)
Definition drafted (s : Store) (d : InteractionDraft) : Store :=
  {| narratives := narratives s; dreams := dreams s; stats := stats s;
     loading := loading s; activeTab := activeTab s;
     newInteraction := d |}.

(** The texts a narrative is expected to contribute to the screen: title,
    archetype, tone, prose, then each tag behind a hash sign. *)
Definition narrative_texts (n : NarrativeFragment) : list string :=
  [title n; archetype n; n_emotional_tone n; n_prose n]
  ++ flat_map (fun tag => ["#"; tag]) (tags n).

(** The five endpoints, numbered in the order of [Request]. *)
Definition endpoint {X} (r : Request X) : nat :=
  match r with
  | GetNarratives => 0
  | GetDreams => 1
  | GetStats => 2
  | PostProcess _ => 3
  | PostDream => 4
  end.

(** ** The tab buttons as rendered (lines 152-171) *)

Definition children (v : VNode) : list VNode :=
  match v with
  | El _ _ _ _ _ kids => kids
  | _ => []
  end.



(** ** Operations in flight *)

(** The body of an async function as a tree that can stop at an [await].
    The console goes on taking clicks and changes while a request is out;
    a [Task] is what remains to be done of a handler. *)
Inductive Task : Type :=
| Finished
| Write (ev : Event) (f : Store -> Store) (next : Task)
| Log (label : string) (e : Error) (next : Task)
| Fetch {X} (r : Request X) (next : Promise X -> Task)
| Suspend {X} (awaited : Promise X) (resolved : X -> Task) (thrown : Error -> Task)
| Fork (callee : Task) (next : Task).

(** [loadMythosData] (lines 26-42): the three requests leave, then the
    function waits for [Promise.all]. *)
Definition loadMythosData_task : Task :=
  Fetch GetNarratives (fun narrativesP =>
  Fetch GetDreams (fun dreamsP =>
  Fetch GetStats (fun statsP =>
  Suspend (Promise_all narrativesP dreamsP statsP)
    (fun '(narrativesRes, dreamsRes, statsRes) =>
       Write SetNarratives (fun s =>
         {| narratives := narrativesRes; dreams := dreams s; stats := stats s;
            loading := loading s; activeTab := activeTab s;
            newInteraction := newInteraction s |})
       (Write SetDreams (fun s =>
         {| narratives := narratives s; dreams := dreamsRes; stats := stats s;
            loading := loading s; activeTab := activeTab s;
            newInteraction := newInteraction s |})
       (Write SetStats (fun s =>
         {| narratives := narratives s; dreams := dreams s; stats := statsRes;
            loading := loading s; activeTab := activeTab s;
            newInteraction := newInteraction s |})
       (Write SetLoading (fun s =>
         {| narratives := narratives s; dreams := dreams s; stats := stats s;
            loading := false; activeTab := activeTab s;
            newInteraction := newInteraction s |})
        Finished))))
    (fun error =>
       Log "Error loading MythOS data:" error
       (Write SetLoading (fun s =>
         {| narratives := narratives s; dreams := dreams s; stats := stats s;
            loading := false; activeTab := activeTab s;
            newInteraction := newInteraction s |})
        Finished))))).

(** [processInteraction] (lines 44-59), called from a render whose draft is
    [body]: two waits, the second one for the stats. *)
Definition processInteraction_task (body : InteractionDraft) : Task :=
  Fetch (PostProcess body) (fun responseP =>
  Suspend responseP
    (fun response =>
       Write SetNarratives (fun s =>
         {| narratives := response :: narratives s; dreams := dreams s;
            stats := stats s; loading := loading s; activeTab := activeTab s;
            newInteraction := newInteraction s |})
       (Write SetNewInteraction (fun s =>
         {| narratives := narratives s; dreams := dreams s; stats := stats s;
            loading := loading s; activeTab := activeTab s;
            newInteraction :=
              {| user_interaction := ""; ai_response := "";
                 outcome := "success" |} |})
       (Fetch GetStats (fun statsP =>
        Suspend statsP
          (fun statsRes =>
             Write SetStats (fun s =>
               {| narratives := narratives s; dreams := dreams s;
                  stats := statsRes; loading := loading s;
                  activeTab := activeTab s;
                  newInteraction := newInteraction s |})
             Finished)
          (fun error => Log "Error processing interaction:" error Finished)))))
    (fun error => Log "Error processing interaction:" error Finished)).

(** [generateDream] (lines 61-69): one wait, then the refresh is started
    and not waited for. *)
Definition generateDream_task : Task :=
  Fetch PostDream (fun responseP =>
  Suspend responseP
    (fun response =>
       Write SetDreams (fun s =>
         {| narratives := narratives s; dreams := response :: dreams s;
            stats := stats s; loading := loading s; activeTab := activeTab s;
            newInteraction := newInteraction s |})
       (Fork loadMythosData_task Finished))
    (fun error => Log "Error generating dream:" error Finished)).

Definition setActiveTab_task (tab : string) : Task :=
  Write SetActiveTab (fun s =>
    {| narratives := narratives s; dreams := dreams s; stats := stats s;
       loading := loading s; activeTab := tab;
       newInteraction := newInteraction s |})
  Finished.

Definition setNewInteraction_task (v : InteractionDraft) : Task :=
  Write SetNewInteraction (fun s =>
    {| narratives := narratives s; dreams := dreams s; stats := stats s;
       loading := loading s; activeTab := activeTab s;
       newInteraction := v |})
  Finished.

(** A task run from start to end with every wait answered at once: the
    console it ends in and the timeline it leaves.  This is how [Async]
    runs the same function. *)
Fixpoint finish (srv : Service) (t : Task) (c : Console) : Console * Timeline :=
  match t with
  | Finished => (c, [])
  | Write ev f next =>
      let s := f (store c) in
      let '(c', tl) := finish srv next {| store := s; sent := sent c |} in
      (c', (ev, s) :: tl)
  | Log label e next =>
      let '(c', tl) := finish srv next c in
      (c', (ConsoleError label e, store c) :: tl)
  | Fetch r next =>
      let '(c', tl) := finish srv (next (srv _ (sent c) r))
                         {| store := store c; sent := S (sent c) |} in
      (c', (Sent r, store c) :: tl)
  | Suspend awaited resolved thrown =>
      match settled awaited with
      | inr x => finish srv (resolved x) c
      | inl e => finish srv (thrown e) c
      end
  | Fork callee next =>
      let '(c1, t1) := finish srv callee c in
      let '(c2, t2) := finish srv next c1 in
      (c2, t1 ++ t2)
  end.

(** The console with its operations in flight: the store the screen is
    rendered from, the number of requests sent, and the tasks that wait for
    an answer. *)
Record World := {
  screen_store : Store;
  requests_sent : nat;
  in_flight : list Task
}.

(** A task run until it ends or reaches a wait, where it joins the tasks in
    flight.  A callee that is not waited for runs to its own first wait,
    then the caller goes on. *)
Fixpoint advance (srv : Service) (t : Task) (w : World) : World :=
  match t with
  | Finished => w
  | Write _ f next =>
      advance srv next
        {| screen_store := f (screen_store w);
           requests_sent := requests_sent w; in_flight := in_flight w |}
  | Log _ _ next => advance srv next w
  | Fetch r next =>
      advance srv (next (srv _ (requests_sent w) r))
        {| screen_store := screen_store w;
           requests_sent := S (requests_sent w); in_flight := in_flight w |}
  | Suspend _ _ _ =>
      {| screen_store := screen_store w; requests_sent := requests_sent w;
         in_flight := in_flight w ++ [t] |}
  | Fork callee next => advance srv next (advance srv callee w)
  end.

(** A waiting task goes on with the answer its promise settled with. *)
Definition resume (srv : Service) (t : Task) (w : World) : World :=
  match t with
  | Suspend awaited resolved thrown =>
      match settled awaited with
      | inr x => advance srv (resolved x) w
      | inl e => advance srv (thrown e) w
      end
  | _ => advance srv t w
  end.

Definition without (i : nat) (w : World) : World :=
  {| screen_store := screen_store w; requests_sent := requests_sent w;
     in_flight := firstn i (in_flight w) ++ skipn (S i) (in_flight w) |}.

(** The task a handler on screen stands for, in the render of store [s]. *)
Inductive handler_task (s : Store) : Async unit -> Task -> Prop :=
| tab_task tab :
    In tab tab_names -> handler_task s (setActiveTab tab) (setActiveTab_task tab)
| dream_task : handler_task s generateDream generateDream_task
| process_task :
    handler_task s processInteraction (processInteraction_task (newInteraction s)).

Inductive changer_task (s : Store) : (string -> Async unit) -> string -> Task -> Prop :=
| user_interaction_task v :
    changer_task s (change_user_interaction s) v
      (setNewInteraction_task
         {| user_interaction := v;
            ai_response := ai_response (newInteraction s);
            outcome := outcome (newInteraction s) |})
| ai_response_task v :
    changer_task s (change_ai_response s) v
      (setNewInteraction_task
         {| user_interaction := user_interaction (newInteraction s);
            ai_response := v;
            outcome := outcome (newInteraction s) |})
| outcome_task v :
    changer_task s (change_outcome s) v
      (setNewInteraction_task
         {| user_interaction := user_interaction (newInteraction s);
            ai_response := ai_response (newInteraction s);
            outcome := v |}).

(** One thing happens: the user clicks an enabled node of the screen, or
    changes the value of one, and its handler runs to its first wait; or
    one of the waits in flight gets its answer and its task goes on to its
    next wait.  Answers may come in any order and at any time. *)
Inductive move (srv : Service) : World -> World -> Prop :=
| move_click w b h t :
    shown (screen_store w) b ->
    handler b = Some h ->
    is_disabled b = false ->
    handler_task (screen_store w) h t ->
    move srv w (advance srv t w)
| move_change w b f v t :
    shown (screen_store w) b ->
    changer b = Some f ->
    is_disabled b = false ->
    changer_task (screen_store w) f v t ->
    move srv w (advance srv t w)
| move_answer w i t :
    nth_error (in_flight w) i = Some t ->
    move srv w (resume srv t (without i w)).

Inductive moves (srv : Service) : World -> World -> Prop :=
| moves_none w : moves srv w w
| moves_more w1 w2 w3 : move srv w1 w2 -> moves srv w2 w3 -> moves srv w1 w3.

(** The console right after it is mounted: the first load is in flight. *)
Definition mounted (srv : Service) : World :=
  advance srv loadMythosData_task
    {| screen_store := initial_store; requests_sent := 0; in_flight := [] |}.

(** A store change that neither brings the loading flag back nor leaves
    the three tab names. *)
Definition keeps (s s' : Store) : Prop :=
  (loading s = false -> loading s' = false)
  /\ (In (activeTab s) tab_names -> In (activeTab s') tab_names).

(** A task all of whose writes are of that kind. *)
Fixpoint tame (t : Task) : Prop :=
  match t with
  | Finished => True
  | Write _ f next => (forall s, keeps s (f s)) /\ tame next
  | Log _ _ next => tame next
  | Fetch _ next => forall answer, tame (next answer)
  | Suspend _ resolved thrown =>
      (forall x, tame (resolved x)) /\ (forall e, tame (thrown e))
  | Fork callee next => tame callee /\ tame next
  end.

(** The [i]-th wait in flight gets its answer. *)
Definition answer (srv : Service) (i : nat) (w : World) : World :=
  match nth_error (in_flight w) i with
  | Some t => resume srv t (without i w)
  | None => w
  end.

(** * Properties *)

(** ** [Promise.all] *)

Section PromiseAll.
Context {X Y Z : Type}.
Variables (p1 : Promise X) (p2 : Promise Y) (p3 : Promise Z).

Lemma Promise_all_fulfilled x y z :
  settled p1 = inr x -> settled p2 = inr y -> settled p3 = inr z ->
  settled (Promise_all p1 p2 p3) = inr (x, y, z).
Proof.
  intros H1 H2 H3. unfold Promise_all. rewrite H1, H2, H3. reflexivity.
Qed.

Lemma earlier_some a b :
  a <> None \/ b <> None -> exists t e, earlier a b = Some (t, e).
Proof.
  destruct a as [[ta ea]|], b as [[tb eb]|]; simpl; intros [H|H];
    try congruence; try (destruct (Nat.leb ta tb)); eauto.
Qed.

Lemma first_rejection_some :
  (exists e, settled p1 = inl e) \/ (exists e, settled p2 = inl e)
  \/ (exists e, settled p3 = inl e) ->
  exists t e, first_rejection p1 p2 p3 = Some (t, e).
Proof.
  intros H. unfold first_rejection. apply earlier_some.
  destruct H as [[e H]|H].
  - left. unfold rejection. rewrite H. discriminate.
  - right. intros Hnone.
    destruct (earlier_some (rejection p2) (rejection p3)) as (t & e & He).
    + destruct H as [[e H]|[e H]]; [left|right];
        unfold rejection; rewrite H; discriminate.
    + congruence.
Qed.

(** One rejection is enough for [Promise.all] to reject, whatever the two
    other promises did. *)
Lemma Promise_all_rejected :
  (exists e, settled p1 = inl e) \/ (exists e, settled p2 = inl e)
  \/ (exists e, settled p3 = inl e) ->
  exists e, settled (Promise_all p1 p2 p3) = inl e.
Proof.
  intros H. destruct (first_rejection_some H) as (t & e & He).
  exists e. unfold Promise_all. rewrite He.
  destruct (settled p1), (settled p2), (settled p3); try reflexivity.
  exfalso. destruct H as [[? H]|[[? H]|[? H]]]; discriminate H.
Qed.

(** It rejects only if one of the three did. *)
Lemma Promise_all_rejected_inv e :
  settled (Promise_all p1 p2 p3) = inl e ->
  (exists e1, settled p1 = inl e1) \/ (exists e2, settled p2 = inl e2)
  \/ (exists e3, settled p3 = inl e3).
Proof.
  unfold Promise_all.
  destruct (settled p1) as [e1|x]; [eauto|].
  destruct (settled p2) as [e2|y]; [eauto|].
  destruct (settled p3) as [e3|z]; [eauto|].
  discriminate.
Qed.
End PromiseAll.

(** ** The bulk refresh *)

Section BulkRefresh.
Variables (srv : Service) (s : Store) (k : nat).

(** The two ways a refresh can go, decided by the joined promise. *)
Lemma loadMythosData_run :
  run loadMythosData srv s k =
  match settled (Promise_all (narrativesP srv k) (dreamsP srv k) (statsP srv k)) with
  | inr (ns, ds, st) =>
      let s1 := {| narratives := ns; dreams := dreams s; stats := stats s;
                   loading := loading s; activeTab := activeTab s;
                   newInteraction := newInteraction s |} in
      let s2 := {| narratives := ns; dreams := ds; stats := stats s;
                   loading := loading s; activeTab := activeTab s;
                   newInteraction := newInteraction s |} in
      let s3 := {| narratives := ns; dreams := ds; stats := st;
                   loading := loading s; activeTab := activeTab s;
                   newInteraction := newInteraction s |} in
      let s4 := {| narratives := ns; dreams := ds; stats := st;
                   loading := false; activeTab := activeTab s;
                   newInteraction := newInteraction s |} in
      (Returned tt, {| store := s4; sent := S (S (S k)) |},
       [(Sent GetNarratives, s); (Sent GetDreams, s); (Sent GetStats, s);
        (SetNarratives, s1); (SetDreams, s2); (SetStats, s3); (SetLoading, s4)])
  | inl e =>
      let s' := {| narratives := narratives s; dreams := dreams s;
                   stats := stats s; loading := false;
                   activeTab := activeTab s;
                   newInteraction := newInteraction s |} in
      (Returned tt, {| store := s'; sent := S (S (S k)) |},
       [(Sent GetNarratives, s); (Sent GetDreams, s); (Sent GetStats, s);
        (ConsoleError "Error loading MythOS data:" e, s); (SetLoading, s')])
  end.
Proof.
  unfold run, loadMythosData, try_catch, bind, axios, await,
    narrativesP, dreamsP, statsP; simpl.
  destruct (settled (Promise_all _ _ _)) as [e|[[ns ds] st]]; reflexivity.
Qed.

(** A refresh never throws into its caller. *)
Lemma loadMythosData_returns :
  completion (run loadMythosData srv s k) = Returned tt.
Proof.
  rewrite loadMythosData_run.
  destruct (settled (Promise_all _ _ _)) as [e|[[ns ds] st]]; reflexivity.
Qed.

(** A refresh touches neither the active tab nor the draft. *)
Lemma loadMythosData_frame :
  activeTab (final (run loadMythosData srv s k)) = activeTab s
  /\ newInteraction (final (run loadMythosData srv s k)) = newInteraction s.
Proof.
  rewrite loadMythosData_run.
  destruct (settled (Promise_all _ _ _)) as [e|[[ns ds] st]]; split; reflexivity.
Qed.

(** C1. If one of the three fetches of a bulk refresh fails, the refresh
    returns normally, the narratives, dreams and stats are the ones from
    before the refresh -- at the end and after every event on the way,
    whatever the two other fetches answered -- the loading flag ends up
    false, and the failure is logged once, after the three requests. *)
Theorem loadMythosData_failure_discards_all :
  (exists e, settled (narrativesP srv k) = inl e)
  \/ (exists e, settled (dreamsP srv k) = inl e)
  \/ (exists e, settled (statsP srv k) = inl e) ->
  let r := run loadMythosData srv s k in
  completion r = Returned tt
  /\ narratives (final r) = narratives s
  /\ dreams (final r) = dreams s
  /\ stats (final r) = stats s
  /\ loading (final r) = false
  /\ Forall (fun tick => narratives (snd tick) = narratives s
                         /\ dreams (snd tick) = dreams s
                         /\ stats (snd tick) = stats s) (timeline r)
  /\ exists e, events r =
       [Sent GetNarratives; Sent GetDreams; Sent GetStats;
        ConsoleError "Error loading MythOS data:" e; SetLoading].
Proof.
  intros Hfail r. subst r.
  destruct (Promise_all_rejected _ _ _ Hfail) as [e He].
  rewrite loadMythosData_run, He. cbn.
  repeat split; try reflexivity.
  - repeat constructor.
  - exists e. reflexivity.
Qed.

(** C2. When the three fetches succeed, the refresh returns normally and
    leaves exactly the three results in the narratives, dreams and stats
    fields (the stats object is the fetched one, nothing of the old one
    is kept), with the loading flag false; tab and draft are as before. *)
Theorem loadMythosData_success_replaces_all ns ds st :
  settled (narrativesP srv k) = inr ns ->
  settled (dreamsP srv k) = inr ds ->
  settled (statsP srv k) = inr st ->
  let r := run loadMythosData srv s k in
  completion r = Returned tt
  /\ final r = {| narratives := ns; dreams := ds; stats := st;
                  loading := false; activeTab := activeTab s;
                  newInteraction := newInteraction s |}
  /\ events r =
       [Sent GetNarratives; Sent GetDreams; Sent GetStats;
        SetNarratives; SetDreams; SetStats; SetLoading].
Proof.
  intros Hn Hd Hs r. subst r.
  rewrite loadMythosData_run, (Promise_all_fulfilled _ _ _ _ _ _ Hn Hd Hs).
  repeat split.
Qed.
End BulkRefresh.

Lemma loadMythosData_failure_discards_all_witness :
  (exists e, settled (statsP service_without_stats 0) = inl e)
  /\ narratives (final (run loadMythosData service_without_stats busy_store 0))
     = [sage_fragment]
  /\ stats (final (run loadMythosData service_without_stats busy_store 0))
     = one_narrative_stats
  /\ loading (final (run loadMythosData service_without_stats busy_store 0))
     = false.
Proof.
  assert (H : exists e, settled (statsP service_without_stats 0) = inl e)
    by (exists (BadStatus 503); reflexivity).
  split; [exact H|].
  destruct (loadMythosData_failure_discards_all
              service_without_stats busy_store 0 (or_intror (or_intror H)))
    as (_ & Hn & _ & Hs & Hl & _).
  repeat split; assumption.
Defined.

Lemma loadMythosData_success_replaces_all_witness :
  settled (narrativesP service_up 0) = inr [hero_fragment]
  /\ settled (dreamsP service_up 0) = inr []
  /\ settled (statsP service_up 0) = inr one_narrative_stats
  /\ final (run loadMythosData service_up initial_store 0)
     = {| narratives := [hero_fragment]; dreams := [];
          stats := one_narrative_stats; loading := false;
          activeTab := "narratives"; newInteraction := blank_draft |}.
Proof.
  split; [reflexivity|]. split; [reflexivity|]. split; [reflexivity|].
  apply (loadMythosData_success_replaces_all service_up initial_store 0
           [hero_fragment] [] one_narrative_stats); reflexivity.
Defined.

(** ** Submitting an interaction *)

Section Submission.
Variables (srv : Service) (s : Store) (k : nat).

(** The three ways a submission can go. *)
Lemma processInteraction_run :
  run processInteraction srv s k =
  match settled (posted srv s k) with
  | inl e =>
      (Returned tt, {| store := s; sent := S k |},
       [(Sent (PostProcess (newInteraction s)), s);
        (ConsoleError "Error processing interaction:" e, s)])
  | inr f =>
      let s1 := {| narratives := f :: narratives s; dreams := dreams s;
                   stats := stats s; loading := loading s;
                   activeTab := activeTab s;
                   newInteraction := newInteraction s |} in
      let head := [(Sent (PostProcess (newInteraction s)), s);
                   (SetNarratives, s1);
                   (SetNewInteraction, submitted s f);
                   (Sent GetStats, submitted s f)] in
      match settled (restated srv k) with
      | inr st =>
          let s3 := {| narratives := f :: narratives s; dreams := dreams s;
                       stats := st; loading := loading s;
                       activeTab := activeTab s;
                       newInteraction := blank_draft |} in
          (Returned tt, {| store := s3; sent := S (S k) |},
           head ++ [(SetStats, s3)])
      | inl e =>
          (Returned tt, {| store := submitted s f; sent := S (S k) |},
           head ++ [(ConsoleError "Error processing interaction:" e, submitted s f)])
      end
  end.
Proof.
  unfold run, processInteraction, try_catch, bind, read, axios, await,
    posted, restated, submitted; simpl.
  destruct (settled (srv _ k _)) as [e|f]; [reflexivity|].
  simpl. destruct (settled (srv _ (S k) _)) as [e|st]; reflexivity.
Qed.

(** A submission never throws into its caller. *)
Lemma processInteraction_returns :
  completion (run processInteraction srv s k) = Returned tt.
Proof.
  rewrite processInteraction_run.
  destruct (settled (posted srv s k)); [|destruct (settled (restated srv k))]; reflexivity.
Qed.

(** C3. With both draft fields filled in and a POST that succeeds with
    fragment [f], the submission puts [f] in front of the old narrative
    list and resets the draft to empty strings and outcome "success"; then
    it sends one more request, the stats one, and no other: the run's
    requests are the POST and GET stats.  When that request is sent the
    prepended list and the reset draft are already in place, and whatever
    it answers, narratives, dreams, loading flag, tab and draft stay as they
    were at that moment; only the stats field takes the answer. *)
Theorem processInteraction_success f :
  user_interaction (newInteraction s) <> "" ->
  ai_response (newInteraction s) <> "" ->
  settled (posted srv s k) = inr f ->
  let r := run processInteraction srv s k in
  narratives (final r) = f :: narratives s
  /\ newInteraction (final r)
     = {| user_interaction := ""; ai_response := ""; outcome := "success" |}
  /\ requests r = [Sent (PostProcess (newInteraction s)); Sent GetStats]
  /\ (exists after,
        timeline r =
          [(Sent (PostProcess (newInteraction s)), s);
           (SetNarratives,
            {| narratives := f :: narratives s; dreams := dreams s;
               stats := stats s; loading := loading s;
               activeTab := activeTab s;
               newInteraction := newInteraction s |});
           (SetNewInteraction, submitted s f);
           (Sent GetStats, submitted s f);
           after]
        /\ (fst after = SetStats
            \/ exists e,
                 fst after = ConsoleError "Error processing interaction:" e))
  /\ dreams (final r) = dreams s
  /\ loading (final r) = loading s
  /\ activeTab (final r) = activeTab s
  /\ (forall st, settled (restated srv k) = inr st -> stats (final r) = st).
Proof.
  intros _ _ Hpost r. subst r.
  rewrite processInteraction_run, Hpost.
  destruct (settled (restated srv k)) as [e|st]; cbn.
  - repeat split; try reflexivity.
    + eexists. split; [reflexivity|]. right. exists e. reflexivity.
    + discriminate.
  - repeat split; try reflexivity.
    + eexists. split; [reflexivity|]. left. reflexivity.
    + intros st' [= <-]. reflexivity.
Qed.

(** C7. When the POST fails, the submission returns normally, the store is
    the one from before the call -- draft, narrative list and every other
    field -- and the failure is logged; nothing else happens. *)
Theorem processInteraction_failure_keeps_store e :
  settled (posted srv s k) = inl e ->
  let r := run processInteraction srv s k in
  completion r = Returned tt
  /\ final r = s
  /\ timeline r =
       [(Sent (PostProcess (newInteraction s)), s);
        (ConsoleError "Error processing interaction:" e, s)].
Proof.
  intros Hpost r. subst r.
  rewrite processInteraction_run, Hpost. cbn. destruct s. repeat split.
Qed.

(** C10. When the POST succeeds with [f] and the stats request that follows
    fails, the submission returns normally with [f] still in front of the
    narrative list and the draft still reset; the stats field is the one
    from before the submission, and the failure is logged as the last
    event, under the label of the submission. *)
Theorem processInteraction_stats_failure_keeps_submission f e :
  settled (posted srv s k) = inr f ->
  settled (restated srv k) = inl e ->
  let r := run processInteraction srv s k in
  completion r = Returned tt
  /\ final r = {| narratives := f :: narratives s; dreams := dreams s;
                  stats := stats s; loading := loading s;
                  activeTab := activeTab s;
                  newInteraction := blank_draft |}
  /\ events r =
       [Sent (PostProcess (newInteraction s)); SetNarratives;
        SetNewInteraction; Sent GetStats;
        ConsoleError "Error processing interaction:" e].
Proof.
  intros Hpost Hstats r. subst r.
  rewrite processInteraction_run, Hpost, Hstats. repeat split.
Qed.
End Submission.

(** The scenario of a first greeting: the draft "Hi" / "Hello there" is
    accepted, the fragment comes back and heads the list, the draft is
    blank again. *)
Lemma processInteraction_success_witness :
  user_interaction (newInteraction busy_store) <> ""
  /\ ai_response (newInteraction busy_store) <> ""
  /\ settled (service_up _ 0 (PostProcess (newInteraction busy_store)))
     = inr hero_fragment
  /\ narratives (final (run processInteraction service_up busy_store 0))
     = [hero_fragment; sage_fragment]
  /\ newInteraction (final (run processInteraction service_up busy_store 0))
     = blank_draft.
Proof.
  assert (Hu : user_interaction (newInteraction busy_store) <> "") by discriminate.
  assert (Ha : ai_response (newInteraction busy_store) <> "") by discriminate.
  split; [exact Hu|]. split; [exact Ha|]. split; [reflexivity|].
  destruct (processInteraction_success service_up busy_store 0 hero_fragment
              Hu Ha eq_refl) as (Hn & Hd & _).
  split; assumption.
Defined.

Lemma processInteraction_failure_keeps_store_witness :
  settled (service_down _ 0 (PostProcess (newInteraction busy_store)))
  = inl (NetworkError "Network Error")
  /\ final (run processInteraction service_down busy_store 0) = busy_store.
Proof.
  split; [reflexivity|].
  apply (processInteraction_failure_keeps_store service_down busy_store 0
           (NetworkError "Network Error") eq_refl).
Defined.

Lemma processInteraction_stats_failure_keeps_submission_witness :
  settled (service_without_stats _ 0 (PostProcess (newInteraction busy_store)))
  = inr hero_fragment
  /\ settled (service_without_stats _ 1 GetStats) = inl (BadStatus 503)
  /\ final (run processInteraction service_without_stats busy_store 0)
     = {| narratives := [hero_fragment; sage_fragment]; dreams := [];
          stats := one_narrative_stats; loading := false;
          activeTab := "create"; newInteraction := blank_draft |}.
Proof.
  split; [reflexivity|]. split; [reflexivity|].
  apply (processInteraction_stats_failure_keeps_submission
           service_without_stats busy_store 0 hero_fragment (BadStatus 503)
           eq_refl eq_refl).
Defined.

(** ** Dream generation *)

Section DreamGeneration.
Variables (srv : Service) (s : Store) (k : nat).

Lemma generateDream_run :
  run generateDream srv s k =
  match settled (srv _ k PostDream) with
  | inl e =>
      (Returned tt, {| store := s; sent := S k |},
       [(Sent PostDream, s); (ConsoleError "Error generating dream:" e, s)])
  | inr d =>
      (Returned tt,
       snd (fst (run loadMythosData srv (dreamt s d) (S k))),
       (Sent PostDream, s) :: (SetDreams, dreamt s d)
       :: timeline (run loadMythosData srv (dreamt s d) (S k)))
  end.
Proof.
  unfold run at 1. unfold generateDream, try_catch, bind, axios, await; simpl.
  destruct (settled (srv _ k PostDream)) as [e|d]; [reflexivity|].
  simpl. unfold unawaited, dreamt, run.
  destruct (loadMythosData srv _) as [[c0 c1] t1]. reflexivity.
Qed.

(** C6. When the POST succeeds with dream [d], the first thing that happens
    to the store is that [d] is put in front of the old dream list; from
    that state a bulk refresh runs, the same [loadMythosData] as on mount,
    so the requests of the whole run are the POST followed by the three
    GETs for narratives, dreams and stats, and the run ends in the state
    the refresh ends in. *)
Theorem generateDream_success d :
  settled (srv _ k PostDream) = inr d ->
  let r := run generateDream srv s k in
  let refresh := run loadMythosData srv (dreamt s d) (S k) in
  dreams (dreamt s d) = d :: dreams s
  /\ timeline r = (Sent PostDream, s) :: (SetDreams, dreamt s d) :: timeline refresh
  /\ final r = final refresh
  /\ requests r = [Sent PostDream; Sent GetNarratives; Sent GetDreams; Sent GetStats]
  /\ completion r = Returned tt.
Proof.
  intros Hpost r refresh. subst r refresh.
  rewrite generateDream_run, Hpost.
  split; [reflexivity|]. split; [reflexivity|]. split; [reflexivity|].
  split; [|reflexivity].
  unfold requests, events, timeline. cbn [snd map filter is_request fst].
  do 2 f_equal.
  rewrite loadMythosData_run.
  destruct (settled (Promise_all _ _ _)) as [e|[[ns ds] st]]; reflexivity.
Qed.

(** When the POST fails, nothing changes and no refresh is started. *)
Lemma generateDream_failure e :
  settled (srv _ k PostDream) = inl e ->
  final (run generateDream srv s k) = s
  /\ requests (run generateDream srv s k) = [Sent PostDream].
Proof.
  intros Hpost. rewrite generateDream_run, Hpost. cbn. destruct s. split; reflexivity.
Qed.
End DreamGeneration.

(** A dream generated against [service_up] from the state with one
    narrative: the dream heads the list the refresh starts from, and the
    refresh then replaces the three fields by what the service holds. *)
Lemma generateDream_success_witness :
  settled (service_up _ 0 PostDream) = inr nyx_dream
  /\ requests (run generateDream service_up busy_store 0)
     = [Sent PostDream; Sent GetNarratives; Sent GetDreams; Sent GetStats]
  /\ map (fun tick => dreams (snd tick))
         (timeline (run generateDream service_up busy_store 0))
     = [[]; [nyx_dream]; [nyx_dream]; [nyx_dream]; [nyx_dream]; [nyx_dream];
        []; []; []].
Proof.
  split; [reflexivity|].
  destruct (generateDream_success service_up busy_store 0 nyx_dream eq_refl)
    as (_ & Htimeline & _ & Hrequests & _).
  split; [exact Hrequests|].
  rewrite Htimeline. reflexivity.
Defined.

(** ** The loading flag *)

Lemma mount_run srv s k :
  run mount srv s k =
  (Returned tt, snd (fst (run loadMythosData srv s k)),
   timeline (run loadMythosData srv s k)).
Proof.
  unfold mount, unawaited, run, timeline.
  destruct (loadMythosData srv _) as [[c0 c1] t1]. reflexivity.
Qed.

(** A refresh writes the flag once, as its last event, and writes [false]:
    until then the flag is what it was when the refresh began. *)
Lemma loadMythosData_loading srv s k :
  Forall (fun tick => loading (snd tick) = loading s)
         (removelast (timeline (run loadMythosData srv s k)))
  /\ loading (final (run loadMythosData srv s k)) = false.
Proof.
  rewrite loadMythosData_run.
  destruct (settled (Promise_all _ _ _)) as [e|[[ns ds] st]]; cbn;
    split; try reflexivity; repeat constructor.
Qed.

(** C5, as the code has it.  After any bulk refresh, whether it succeeded
    or failed, the loading flag is false.  The refresh never raises the
    flag: after every event before its last one the flag has the value it
    had when the refresh began.  For the load started on mount, where the
    flag starts out true, this means it is true until the load is over. *)
Theorem loading_flag_over_a_refresh srv s k :
  loading (final (run loadMythosData srv s k)) = false
  /\ Forall (fun tick => loading (snd tick) = loading s)
            (removelast (timeline (run loadMythosData srv s k)))
  /\ loading_shown_throughout (run mount srv initial_store k).
Proof.
  destruct (loadMythosData_loading srv s k) as [Hkeep Hend].
  split; [exact Hend|]. split; [exact Hkeep|].
  unfold loading_shown_throughout. rewrite mount_run.
  destruct (loadMythosData_loading srv initial_store k) as [Hkeep0 Hend0].
  split; [exact Hkeep0 | exact Hend0].
Qed.

(** C5 fails for a re-load.  After the first load from [service_up] the
    flag is false; a dream generated then starts a refresh in that state,
    and the flag is false after every event of it. *)
Lemma reload_runs_with_loading_false :
  let s1 := final (run mount service_up initial_store 0) in
  let s2 := dreamt s1 nyx_dream in
  timeline (run generateDream service_up s1 3)
  = (Sent PostDream, s1) :: (SetDreams, s2)
    :: timeline (run loadMythosData service_up s2 4)
  /\ loading_trace (run loadMythosData service_up s2 4)
     = [false; false; false; false; false; false; false]
  /\ ~ loading_shown_throughout (run loadMythosData service_up s2 4).
Proof.
  cbv zeta. split; [reflexivity|]. split; [reflexivity|].
  intros [Hheld _]. cbn in Hheld.
  inversion Hheld as [|tick rest Hfirst _]. discriminate Hfirst.
Qed.

(** ** Navigation *)

(** The three tab buttons call [selectTab] with their own tab. *)
Lemma tab_navigation_selects :
  tab_navigation =
  div [ button (selectTab "narratives") false [Text "Narratives"];
        button (selectTab "dreams") false [Text "Dreams"];
        button (selectTab "create") false [Text "Create"] ].
Proof. reflexivity. Qed.

Lemma selectTab_run srv s k tab :
  run (selectTab tab) srv s k =
  (Returned tt, {| store := on_tab s tab; sent := k |},
   [(SetActiveTab, on_tab s tab)]).
Proof. reflexivity. Qed.

(** Two calls of the setter in a row: the second value is the one that
    stays, and nothing but the active tab differs from the store before. *)
Lemma selectTab_twice srv s k X Y :
  let r := run (selectTab X ;; selectTab Y) srv s k in
  activeTab (final r) = Y
  /\ final (run (selectTab X) srv s k) = on_tab s X
  /\ final r = on_tab s Y
  /\ narratives (final r) = narratives s
  /\ dreams (final r) = dreams s
  /\ stats (final r) = stats s
  /\ loading (final r) = loading s
  /\ newInteraction (final r) = newInteraction s
  /\ timeline r = [(SetActiveTab, on_tab s X); (SetActiveTab, on_tab s Y)]
  /\ completion r = Returned tt.
Proof.
  cbv zeta. repeat split.
Qed.

(** ** The view *)

(** Splits a membership in an explicit part of the tree into its cases. *)
Ltac pick_node H :=
  repeat match type of H with
         | In _ (_ ++ _) => apply in_app_or in H; destruct H as [H|H]
         | In _ (_ :: _) => destruct H as [H|H]
         | In _ [] => destruct H
         | _ \/ _ => destruct H as [H|H]
         | False => destruct H
         end.

Lemma tag_spans_no_handler (l : list string) b :
  In b (flat_map nodes (map (fun tag => span [Text "#"; Text tag]) l)) ->
  handler b = None.
Proof.
  induction l as [|tag l IH]; cbn [map flat_map]; intros H.
  - destruct H.
  - apply in_app_or in H. destruct H as [H|H]; [|exact (IH H)].
    cbn in H. pick_node H; subst b; reflexivity.
Qed.

Lemma narrative_card_no_handler n b :
  In b (nodes (narrative_card n)) -> handler b = None.
Proof.
  unfold narrative_card, div, h3, span, p, plain.
  cbn [nodes flat_map app]. intros H.
  pick_node H; try (subst b; reflexivity).
  exact (tag_spans_no_handler _ _ H).
Qed.

Lemma dream_card_no_handler d b :
  In b (nodes (dream_card d)) -> handler b = None.
Proof.
  cbn. intros H. pick_node H; subst b; reflexivity.
Qed.

Lemma cards_no_handler {A} (card : A -> VNode) (l : list A) b :
  (forall a v, In v (nodes (card a)) -> handler v = None) ->
  In b (flat_map nodes (map card l)) -> handler b = None.
Proof.
  intros Hcard. induction l as [|a l IH]; cbn [map flat_map]; intros H.
  - destruct H.
  - apply in_app_or in H. destruct H as [H|H]; eauto.
Qed.

(** A tab switch sends nothing, a dream generation four requests, a
    submission two. *)
Lemma setActiveTab_not_processInteraction tab :
  setActiveTab tab <> processInteraction.
Proof.
  intros H. apply (f_equal requests_against_service_up) in H. discriminate H.
Qed.

Lemma generateDream_not_processInteraction :
  generateDream <> processInteraction.
Proof.
  intros H. apply (f_equal requests_against_service_up) in H. discriminate H.
Qed.

Ltac classify H b :=
  pick_node H;
  try (subst b;
       first [ apply Inert; reflexivity
             | eapply TabSwitch; reflexivity
             | apply Dreamer; reflexivity
             | apply Submitter; reflexivity ]).

Lemma tab_navigation_clickable s b :
  In b (nodes tab_navigation) -> Clickable s b.
Proof.
  cbn. intros H. classify H b.
Qed.

Lemma narratives_tab_clickable s b :
  In b (nodes (narratives_tab s)) -> Clickable s b.
Proof.
  unfold narratives_tab.
  destruct (Nat.eqb (length (narratives s)) 0); cbn; intros H; classify H b.
  apply Inert, (cards_no_handler _ _ _ narrative_card_no_handler H).
Qed.

Lemma dreams_tab_clickable s b :
  In b (nodes (dreams_tab s)) -> Clickable s b.
Proof.
  unfold dreams_tab.
  destruct (Nat.eqb (length (dreams s)) 0); cbn; intros H; classify H b.
  apply Inert, (cards_no_handler _ _ _ dream_card_no_handler H).
Qed.

Lemma create_tab_clickable s b :
  In b (nodes (create_tab s)) -> Clickable s b.
Proof.
  cbn. intros H. classify H b.
Qed.

Lemma nodes_div kids : nodes (div kids) = div kids :: flat_map nodes kids.
Proof. reflexivity. Qed.

Lemma header_clickable s b : In b (nodes (header s)) -> Clickable s b.
Proof.
  cbn. intros H. classify H b.
Qed.

Lemma main_content_clickable s b :
  In b (nodes (main_content s)) -> Clickable s b.
Proof.
  unfold main_content. rewrite nodes_div. cbn [flat_map]. intros H.
  classify H b.
  - now apply tab_navigation_clickable.
  - apply in_flat_map in H. destruct H as (tab & Htab & H).
    unfold when in Htab.
    destruct (String.eqb (activeTab s) "narratives"),
             (String.eqb (activeTab s) "dreams"),
             (String.eqb (activeTab s) "create");
      cbn in Htab; pick_node Htab; subst tab;
      first [ now apply narratives_tab_clickable
            | now apply dreams_tab_clickable
            | now apply create_tab_clickable ].
Qed.

(** The inventory of the screen: every node is inert, a tab switch, a dream
    trigger or the button of the form. *)
Lemma shown_clickable s b : shown s b -> Clickable s b.
Proof.
  unfold shown, render. destruct (loading s).
  - cbn. intros H. classify H b.
  - rewrite nodes_div. cbn [flat_map]. intros H. classify H b.
    + now apply header_clickable.
    + now apply main_content_clickable.
Qed.

Lemma nodes_root v : In v (nodes v).
Proof. destruct v; left; reflexivity. Qed.

Lemma nodes_child tag h c d x kids kid v :
  In kid kids -> In v (nodes kid) -> In v (nodes (El tag h c d x kids)).
Proof.
  intros Hkid Hv. cbn [nodes]. right.
  apply in_flat_map. exists kid. split; assumption.
Qed.

(** Once loaded, the tab named by [activeTab] is on screen with all it
    contains. *)
Lemma narratives_tab_shown s v :
  loading s = false -> activeTab s = "narratives" ->
  In v (nodes (narratives_tab s)) -> shown s v.
Proof.
  intros Hl Ht Hv. unfold shown, render. rewrite Hl.
  apply nodes_child with (kid := main_content s); [right; left; reflexivity|].
  unfold main_content. rewrite Ht.
  apply nodes_child with (kid := narratives_tab s); [right; left; reflexivity|].
  exact Hv.
Qed.

Lemma create_tab_shown s v :
  loading s = false -> activeTab s = "create" ->
  In v (nodes (create_tab s)) -> shown s v.
Proof.
  intros Hl Ht Hv. unfold shown, render. rewrite Hl.
  apply nodes_child with (kid := main_content s); [right; left; reflexivity|].
  unfold main_content. rewrite Ht.
  apply nodes_child with (kid := create_tab s); [right; left; reflexivity|].
  exact Hv.
Qed.

Lemma process_button_shown s :
  loading s = false -> activeTab s = "create" -> shown s (process_button s).
Proof.
  intros Hl Ht. apply create_tab_shown; trivial.
  unfold create_tab.
  eapply nodes_child; [right; left; reflexivity|].
  eapply nodes_child; [left; reflexivity|].
  eapply nodes_child; [do 3 right; left; reflexivity|].
  apply nodes_root.
Qed.

(** With both fields filled in the button is enabled, and a click on it is a
    call of [processInteraction]. *)
Lemma process_button_enabled s :
  user_interaction (newInteraction s) <> "" ->
  ai_response (newInteraction s) <> "" ->
  is_disabled (process_button s) = false
  /\ click (process_button s) = processInteraction.
Proof.
  intros Hu Ha. unfold process_button, button, falsy. cbn.
  destruct (String.eqb_spec (user_interaction (newInteraction s)) "") as [E|_];
    [contradiction|].
  destruct (String.eqb_spec (ai_response (newInteraction s)) "") as [E|_];
    [contradiction|].
  split; reflexivity.
Qed.

(** C4. In a state whose draft has an empty [user_interaction] or an empty
    [ai_response], invoking [processInteraction] from the screen is a
    no-op.  The function is called from one place, the [onClick] of the
    button of the form; whatever on screen is bound to it is disabled in
    such a state, and a click on it does nothing: no request is sent, no
    event happens, the store is the same. *)
Theorem blank_draft_disables_submission srv s k b :
  user_interaction (newInteraction s) = "" \/ ai_response (newInteraction s) = "" ->
  shown s b ->
  handler b = Some processInteraction ->
  is_disabled b = true
  /\ run (click b) srv s k = (Returned tt, {| store := s; sent := k |}, []).
Proof.
  intros Hblank Hshown Hbound.
  destruct (shown_clickable s b Hshown) as [Hnone|tab Htab _|Hdream _|Hform].
  4: subst b.
  - congruence.
  - rewrite Htab in Hbound. injection Hbound as Hbound.
    destruct (setActiveTab_not_processInteraction _ Hbound).
  - rewrite Hdream in Hbound. injection Hbound as Hbound.
    destruct (generateDream_not_processInteraction Hbound).
  - assert (Hoff : falsy (user_interaction (newInteraction s))
                   || falsy (ai_response (newInteraction s)) = true).
    { unfold falsy. destruct Hblank as [-> | ->]; cbn; [reflexivity|].
      apply orb_true_r. }
    unfold process_button, button, click, is_disabled. rewrite Hoff.
    split; reflexivity.
Qed.

Lemma blank_draft_disables_submission_witness :
  (user_interaction (newInteraction idle_create_store) = ""
   \/ ai_response (newInteraction idle_create_store) = "")
  /\ shown idle_create_store (process_button idle_create_store)
  /\ handler (process_button idle_create_store) = Some processInteraction
  /\ is_disabled (process_button idle_create_store) = true
  /\ run (click (process_button idle_create_store)) service_up idle_create_store 3
     = (Returned tt, {| store := idle_create_store; sent := 3 |}, []).
Proof.
  assert (Hblank : user_interaction (newInteraction idle_create_store) = ""
                   \/ ai_response (newInteraction idle_create_store) = "")
    by (left; reflexivity).
  assert (Hshown : shown idle_create_store (process_button idle_create_store))
    by (apply process_button_shown; reflexivity).
  split; [exact Hblank|]. split; [exact Hshown|]. split; [reflexivity|].
  exact (blank_draft_disables_submission service_up idle_create_store 3
           (process_button idle_create_store) Hblank Hshown eq_refl).
Defined.

(** The state of the example above is one the console gets to: it is there
    after the first load from [service_up] and a click on the Create tab. *)
Lemma idle_create_store_reached :
  final (run (mount ;; click (button (setActiveTab "create") false [Text "Create"]))
             service_up initial_store 0)
  = idle_create_store.
Proof. reflexivity. Qed.





(** A click on the shortcut of the empty state is [selectTab "create"]. *)
Lemma create_first_narrative_click :
  click create_first_narrative = selectTab "create".
Proof. reflexivity. Qed.

(** C9, as the code has it.  When the narrative list is empty, the load is
    over and the Narratives tab is the active one, the empty state is on
    screen -- its text and the button "Create First Narrative" -- and the
    grid of narrative cards is not; a click on the button is
    [selectTab "create"] and leaves Create as the active tab. *)
Theorem empty_narratives_show_empty_state s :
  narratives s = [] ->
  loading s = false ->
  activeTab s = "narratives" ->
  shown s narratives_empty_state
  /\ shown s (Text no_narratives_text)
  /\ shown s create_first_narrative
  /\ ~ shown s (narratives_grid s)
  /\ click create_first_narrative = selectTab "create"
  /\ forall srv k,
       final (run (click create_first_narrative) srv s k) = on_tab s "create".
Proof.
  intros Hn Hl Ht.
  assert (Hin : forall v, In v (nodes narratives_empty_state) -> shown s v).
  { intros v Hv. apply narratives_tab_shown; trivial.
    unfold narratives_tab. rewrite Hn. cbn [length Nat.eqb].
    apply nodes_child with (kid := narratives_empty_state);
      [right; left; reflexivity | exact Hv]. }
  split; [apply Hin, nodes_root|].
  split; [apply Hin; cbn; tauto|].
  split; [apply Hin; cbn; tauto|].
  split; [|split; [reflexivity | intros srv k; reflexivity]].
  unfold shown, render, narratives_grid, main_content, narratives_tab.
  rewrite Hn, Hl, Ht. cbn. intros H.
  pick_node H; discriminate H.
Qed.

(** The first load of a console whose service has nothing stored: empty
    lists, zero counts, and the empty state on the Narratives tab. *)
Lemma empty_narratives_show_empty_state_witness :
  let s := final (run mount service_empty initial_store 0) in
  narratives s = []
  /\ loading s = false
  /\ activeTab s = "narratives"
  /\ stats s = zero_stats
  /\ shown s narratives_empty_state
  /\ shown s create_first_narrative
  /\ activeTab (final (run (click create_first_narrative) service_empty s 3))
     = "create".
Proof.
  cbv zeta.
  destruct (empty_narratives_show_empty_state
              (final (run mount service_empty initial_store 0))
              eq_refl eq_refl eq_refl)
    as (Hstate & _ & Hbutton & _ & _ & Hclick).
  split; [reflexivity|]. split; [reflexivity|]. split; [reflexivity|].
  split; [reflexivity|]. split; [exact Hstate|]. split; [exact Hbutton|].
  rewrite Hclick. reflexivity.
Defined.

(** C9 fails off the Narratives tab and while loading.  With an empty
    narrative list, the Dreams tab shows no text of the narratives' empty
    state and no shortcut to Create other than the tab button; neither does
    the screen shown before the first load is over. *)
Lemma empty_narratives_hidden_elsewhere :
  let s := on_tab (final (run mount service_empty initial_store 0)) "dreams" in
  narratives s = []
  /\ ~ shown s narratives_empty_state
  /\ ~ In no_narratives_text (texts (render s))
  /\ ~ In "Create First Narrative" (texts (render s))
  /\ narratives initial_store = []
  /\ texts (render initial_store) = ["MythOS is awakening..."].
Proof.
  cbv zeta. split; [reflexivity|].
  split; [|split; [|split; [|split; reflexivity]]];
    cbn; intros H; pick_node H; discriminate H.
Qed.

(** * Further properties of the protocols *)

Lemma loadMythosData_sent srv s k :
  sent (snd (fst (run loadMythosData srv s k))) = S (S (S k)).
Proof.
  rewrite loadMythosData_run.
  destruct (settled (Promise_all _ _ _)) as [e|[[ns ds] st]]; reflexivity.
Qed.

(** X1. A bulk refresh sends its three GETs -- narratives, dreams, stats, in
    this order -- before anything else happens, and sends nothing else,
    whatever the answers are: a fetch that fails does not keep the other
    two from being sent. *)
Theorem loadMythosData_sends_three srv s k :
  let r := run loadMythosData srv s k in
  requests r = [Sent GetNarratives; Sent GetDreams; Sent GetStats]
  /\ firstn 3 (timeline r)
     = [(Sent GetNarratives, s); (Sent GetDreams, s); (Sent GetStats, s)]
  /\ sent (snd (fst r)) = 3 + k.
Proof.
  cbv zeta. rewrite loadMythosData_run.
  destruct (settled (Promise_all _ _ _)) as [e|[[ns ds] st]];
    repeat split.
Qed.

Lemma generateDream_returns srv s k :
  completion (run generateDream srv s k) = Returned tt.
Proof.
  rewrite generateDream_run.
  destruct (settled (srv _ k PostDream)); reflexivity.
Qed.

(** X2. None of the protocols lets a failure out: whatever the service
    answers, the first load, a refresh, a submission and a dream generation
    all return normally. *)
Theorem protocols_never_throw srv s k :
  completion (run mount srv s k) = Returned tt
  /\ completion (run loadMythosData srv s k) = Returned tt
  /\ completion (run processInteraction srv s k) = Returned tt
  /\ completion (run generateDream srv s k) = Returned tt.
Proof.
  split; [rewrite mount_run; reflexivity|].
  split; [apply loadMythosData_returns|].
  split; [apply processInteraction_returns | apply generateDream_returns].
Qed.

(** A refresh whose three fetches succeed ends in a store made of the three
    answers, the tab and the draft: what the lists and the stats were
    before plays no role. *)
Lemma loadMythosData_success_final srv s k ns ds st :
  settled (narrativesP srv k) = inr ns ->
  settled (dreamsP srv k) = inr ds ->
  settled (statsP srv k) = inr st ->
  snd (fst (run loadMythosData srv s k))
  = {| store := {| narratives := ns; dreams := ds; stats := st;
                   loading := false; activeTab := activeTab s;
                   newInteraction := newInteraction s |};
       sent := S (S (S k)) |}.
Proof.
  intros Hn Hd Hs.
  rewrite loadMythosData_run, (Promise_all_fulfilled _ _ _ _ _ _ Hn Hd Hs).
  reflexivity.
Qed.

Lemma loadMythosData_failure_final srv s k :
  (exists e, settled (narrativesP srv k) = inl e)
  \/ (exists e, settled (dreamsP srv k) = inl e)
  \/ (exists e, settled (statsP srv k) = inl e) ->
  exists e,
    run loadMythosData srv s k
    = (Returned tt,
       {| store := {| narratives := narratives s; dreams := dreams s;
                      stats := stats s; loading := false;
                      activeTab := activeTab s;
                      newInteraction := newInteraction s |};
          sent := S (S (S k)) |},
       [(Sent GetNarratives, s); (Sent GetDreams, s); (Sent GetStats, s);
        (ConsoleError "Error loading MythOS data:" e, s);
        (SetLoading, {| narratives := narratives s; dreams := dreams s;
                        stats := stats s; loading := false;
                        activeTab := activeTab s;
                        newInteraction := newInteraction s |})]).
Proof.
  intros Hfail. destruct (Promise_all_rejected _ _ _ Hfail) as [e He].
  exists e. rewrite loadMythosData_run, He. reflexivity.
Qed.

Lemma run_bind {A B} (m : Async A) (n : A -> Async B) srv s k :
  run (bind m n) srv s k =
  match run m srv s k with
  | (Returned a, c1, t1) =>
      let '(r, c2, t2) := run (n a) srv (store c1) (sent c1) in (r, c2, t1 ++ t2)
  | (Threw e, c1, t1) => (Threw e, c1, t1)
  end.
Proof.
  unfold run, bind. destruct (m srv _) as [[[a|e] [s1 k1]] t1]; reflexivity.
Qed.

(** X3. Of two refreshes run one after the other the last one wins: when
    the three fetches of the second succeed, the store ends up with their
    answers, whether the first refresh succeeded or failed and whatever it
    fetched. *)
Theorem last_refresh_wins srv s k ns ds st :
  settled (narrativesP srv (3 + k)) = inr ns ->
  settled (dreamsP srv (3 + k)) = inr ds ->
  settled (statsP srv (3 + k)) = inr st ->
  final (run (loadMythosData ;; loadMythosData) srv s k)
  = {| narratives := ns; dreams := ds; stats := st; loading := false;
       activeTab := activeTab s; newInteraction := newInteraction s |}.
Proof.
  intros Hn Hd Hs. rewrite run_bind.
  pose proof (loadMythosData_returns srv s k) as Hret.
  pose proof (loadMythosData_sent srv s k) as Hsent.
  destruct (loadMythosData_frame srv s k) as [Htab Hdraft].
  unfold completion, final in *.
  destruct (run loadMythosData srv s k) as [[r1 [s1 k1]] t1].
  cbn in Hret, Hsent, Htab, Hdraft. subst r1 k1.
  pose proof (loadMythosData_success_final srv s1 (3 + k) ns ds st Hn Hd Hs) as H2.
  destruct (run loadMythosData srv s1 (3 + k)) as [[r2 c2] t2] eqn:E2.
  cbn [fst snd] in H2. subst c2. cbn [store sent].
  change (S (S (S k))) with (3 + k). rewrite E2.
  cbn. rewrite Htab, Hdraft. reflexivity.
Qed.

Lemma last_refresh_wins_witness :
  settled (narrativesP service_empty 3) = inr []
  /\ settled (dreamsP service_empty 3) = inr []
  /\ settled (statsP service_empty 3) = inr zero_stats
  /\ final (run (loadMythosData ;; loadMythosData) service_empty busy_store 0)
     = {| narratives := []; dreams := []; stats := zero_stats;
          loading := false; activeTab := "create";
          newInteraction := hello_draft |}.
Proof.
  split; [reflexivity|]. split; [reflexivity|]. split; [reflexivity|].
  exact (last_refresh_wins service_empty busy_store 0 [] [] zero_stats
           eq_refl eq_refl eq_refl).
Defined.

(** X4. When the POST of a dream generation fails, the store is the one
    from before, no refresh is started -- the POST is the only request --
    and the failure is logged under the label of the dream generation. *)
Theorem generateDream_failure_keeps_store (srv : Service) s k e :
  settled (srv _ k PostDream) = inl e ->
  run generateDream srv s k
  = (Returned tt, {| store := s; sent := S k |},
     [(Sent PostDream, s); (ConsoleError "Error generating dream:" e, s)]).
Proof.
  intros Hpost. rewrite generateDream_run, Hpost. reflexivity.
Qed.

Lemma generateDream_failure_keeps_store_witness :
  settled (service_down _ 0 PostDream) = inl (NetworkError "Network Error")
  /\ final (run generateDream service_down busy_store 0) = busy_store
  /\ requests (run generateDream service_down busy_store 0) = [Sent PostDream].
Proof.
  split; [reflexivity|].
  rewrite (generateDream_failure_keeps_store service_down busy_store 0
             (NetworkError "Network Error") eq_refl).
  split; reflexivity.
Defined.

(** X5. When the POST of a dream generation succeeds and so do the three
    fetches of the refresh it starts, the store ends up with what the
    fetches returned: the dream list is the fetched one, so the dream that
    was put in front stays only if the service lists it. *)
Theorem generateDream_refresh_replaces_dreams (srv : Service) s k d ns ds st :
  settled (srv _ k PostDream) = inr d ->
  settled (narrativesP srv (S k)) = inr ns ->
  settled (dreamsP srv (S k)) = inr ds ->
  settled (statsP srv (S k)) = inr st ->
  final (run generateDream srv s k)
  = {| narratives := ns; dreams := ds; stats := st; loading := false;
       activeTab := activeTab s; newInteraction := newInteraction s |}.
Proof.
  intros Hpost Hn Hd Hs. rewrite generateDream_run, Hpost.
  unfold final. cbn [fst snd].
  rewrite (loadMythosData_success_final srv (dreamt s d) (S k) ns ds st Hn Hd Hs).
  reflexivity.
Qed.

(** A dream comes back from [service_up], whose dream list is empty: after
    the refresh the dream is gone from the screen's list. *)
Lemma generateDream_refresh_replaces_dreams_witness :
  settled (service_up _ 0 PostDream) = inr nyx_dream
  /\ settled (narrativesP service_up 1) = inr [hero_fragment]
  /\ settled (dreamsP service_up 1) = inr []
  /\ settled (statsP service_up 1) = inr one_narrative_stats
  /\ dreams (final (run generateDream service_up busy_store 0)) = [].
Proof.
  split; [reflexivity|]. split; [reflexivity|]. split; [reflexivity|].
  split; [reflexivity|].
  rewrite (generateDream_refresh_replaces_dreams service_up busy_store 0
             nyx_dream [hero_fragment] [] one_narrative_stats
             eq_refl eq_refl eq_refl eq_refl).
  reflexivity.
Defined.

(** X6. When the POST of a dream generation succeeds with dream [d] and one
    of the fetches of the refresh fails, the dream stays in front of the
    old dream list, narratives, stats, tab and draft are as before, the
    loading flag is false, and the failure is logged under the label of the
    refresh, not of the dream generation. *)
Theorem generateDream_failed_refresh_keeps_dream (srv : Service) s k d :
  settled (srv _ k PostDream) = inr d ->
  (exists e, settled (narrativesP srv (S k)) = inl e)
  \/ (exists e, settled (dreamsP srv (S k)) = inl e)
  \/ (exists e, settled (statsP srv (S k)) = inl e) ->
  let r := run generateDream srv s k in
  final r = {| narratives := narratives s; dreams := d :: dreams s;
               stats := stats s; loading := false;
               activeTab := activeTab s;
               newInteraction := newInteraction s |}
  /\ exists e,
       events r = [Sent PostDream; SetDreams; Sent GetNarratives;
                   Sent GetDreams; Sent GetStats;
                   ConsoleError "Error loading MythOS data:" e; SetLoading].
Proof.
  intros Hpost Hfail. cbv zeta. rewrite generateDream_run, Hpost.
  destruct (loadMythosData_failure_final srv (dreamt s d) (S k) Hfail) as [e He].
  rewrite He. split; [reflexivity|]. exists e. reflexivity.
Qed.

Lemma generateDream_failed_refresh_keeps_dream_witness :
  settled (service_without_stats _ 0 PostDream) = inr nyx_dream
  /\ (exists e, settled (statsP service_without_stats 1) = inl e)
  /\ dreams (final (run generateDream service_without_stats busy_store 0))
     = [nyx_dream]
  /\ stats (final (run generateDream service_without_stats busy_store 0))
     = one_narrative_stats.
Proof.
  assert (H : exists e, settled (statsP service_without_stats 1) = inl e)
    by (exists (BadStatus 503); reflexivity).
  split; [reflexivity|]. split; [exact H|].
  destruct (generateDream_failed_refresh_keeps_dream
              service_without_stats busy_store 0 nyx_dream eq_refl
              (or_intror (or_intror H))) as [Hfinal _].
  rewrite Hfinal. split; reflexivity.
Defined.

(** * Further properties of the view *)

Ltac inspect H b :=
  pick_node H;
  try (subst b;
       first [ apply Still; reflexivity
             | eapply SwitchTo; [ | reflexivity | reflexivity | reflexivity ];
               cbn; tauto
             | apply Dream; reflexivity
             | apply Submit; reflexivity
             | eapply Field; [ reflexivity | reflexivity | reflexivity | ];
               first [ left; reflexivity
                     | right; left; reflexivity
                     | right; right; reflexivity ] ]).

Lemma tag_spans_still (l : list string) b :
  In b (flat_map nodes (map (fun tag => span [Text "#"; Text tag]) l)) ->
  changer b = None.
Proof.
  induction l as [|tag l IH]; cbn [map flat_map]; intros H.
  - destruct H.
  - apply in_app_or in H. destruct H as [H|H]; [|exact (IH H)].
    cbn in H. pick_node H; subst b; reflexivity.
Qed.

Lemma narrative_card_still s n b :
  In b (nodes (narrative_card n)) -> Control s b.
Proof.
  intros H. apply Still; [exact (narrative_card_no_handler _ _ H)|].
  revert H. unfold narrative_card, div, h3, span, p, plain.
  cbn [nodes flat_map app]. intros H.
  pick_node H; try (subst b; reflexivity).
  exact (tag_spans_still _ _ H).
Qed.

Lemma dream_card_still s d b :
  In b (nodes (dream_card d)) -> Control s b.
Proof.
  cbn. intros H. inspect H b.
Qed.

Lemma cards_still {A} (card : A -> VNode) (l : list A) s b :
  (forall a v, In v (nodes (card a)) -> Control s v) ->
  In b (flat_map nodes (map card l)) -> Control s b.
Proof.
  intros Hcard H. apply in_flat_map in H. destruct H as (v & Hv & H).
  apply in_map_iff in Hv. destruct Hv as (a & <- & _). eauto.
Qed.

Lemma narratives_tab_control s b :
  In b (nodes (narratives_tab s)) -> Control s b.
Proof.
  unfold narratives_tab.
  destruct (Nat.eqb (length (narratives s)) 0); cbn; intros H; inspect H b.
  exact (cards_still _ _ _ _ (narrative_card_still s) H).
Qed.

Lemma dreams_tab_control s b :
  In b (nodes (dreams_tab s)) -> Control s b.
Proof.
  unfold dreams_tab.
  destruct (Nat.eqb (length (dreams s)) 0); cbn; intros H; inspect H b.
  exact (cards_still _ _ _ _ (dream_card_still s) H).
Qed.

Lemma create_tab_control s b :
  In b (nodes (create_tab s)) -> Control s b.
Proof.
  cbn. intros H. inspect H b.
Qed.

Lemma main_content_control s b :
  In b (nodes (main_content s)) -> Control s b.
Proof.
  unfold main_content. rewrite nodes_div. cbn [flat_map]. intros H.
  inspect H b.
  - cbn in H. inspect H b.
  - apply in_flat_map in H. destruct H as (tab & Htab & H).
    unfold when in Htab.
    destruct (String.eqb (activeTab s) "narratives"),
             (String.eqb (activeTab s) "dreams"),
             (String.eqb (activeTab s) "create");
      cbn in Htab; pick_node Htab; subst tab;
      first [ now apply narratives_tab_control
            | now apply dreams_tab_control
            | now apply create_tab_control ].
Qed.

(** Every node on screen is one of the five kinds of [Control]. *)
Lemma shown_control s b : shown s b -> Control s b.
Proof.
  unfold shown, render. destruct (loading s).
  - cbn. intros H. inspect H b.
  - rewrite nodes_div. cbn [flat_map]. intros H. inspect H b.
    + cbn in H. inspect H b.
    + now apply main_content_control.
Qed.

(** A click and a change in terms of the node's attributes. *)
Lemma click_spec b :
  click b = match handler b with
            | Some h => if is_disabled b then ret tt else h
            | None => ret tt
            end.
Proof. destruct b as [| | |tag [h|] c [|] x kids]; reflexivity. Qed.

Lemma change_spec b text :
  change b text = match changer b with
                  | Some f => if is_disabled b then ret tt else f text
                  | None => ret tt
                  end.
Proof. destruct b as [| | |tag h [f|] [|] x kids]; reflexivity. Qed.

(** ** What a gesture can do *)

Lemma console_after_run m srv c :
  console_after m srv c = snd (fst (run m srv (store c) (sent c))).
Proof. destruct c. reflexivity. Qed.

(** ** Operations in flight *)

(** The tasks are the functions of the component: run with every wait
    answered at once, each one ends in the console and leaves the timeline
    of its [Async] counterpart. *)
Lemma loadMythosData_task_agrees srv c :
  finish srv loadMythosData_task c
  = (snd (fst (loadMythosData srv c)), snd (loadMythosData srv c)).
Proof.
  unfold loadMythosData_task, loadMythosData, try_catch, bind, axios, await.
  cbn. destruct (settled (Promise_all _ _ _)) as [e|[[ns ds] st]]; reflexivity.
Qed.

Lemma processInteraction_task_agrees srv c :
  finish srv (processInteraction_task (newInteraction (store c))) c
  = (snd (fst (processInteraction srv c)), snd (processInteraction srv c)).
Proof.
  unfold processInteraction_task, processInteraction, try_catch, bind, read,
    axios, await.
  cbn. destruct (settled (srv _ (sent c) _)) as [e|f]; [reflexivity|].
  cbn. destruct (settled (srv _ (S (sent c)) _)) as [e|st]; reflexivity.
Qed.

Lemma generateDream_task_agrees srv c :
  finish srv generateDream_task c
  = (snd (fst (generateDream srv c)), snd (generateDream srv c)).
Proof.
  pose proof (loadMythosData_task_agrees srv) as Hload.
  unfold generateDream_task, generateDream, try_catch, bind, axios, await,
    unawaited.
  set (refresh_task := loadMythosData_task) in *.
  set (refresh := loadMythosData) in *.
  clearbody refresh_task refresh.
  cbn. destruct (settled (srv _ (sent c) PostDream)) as [e|d]; [reflexivity|].
  cbn. rewrite Hload.
  destruct (refresh srv _) as [[r1 c1] t1]. cbn.
  rewrite app_nil_r. reflexivity.
Qed.

Lemma handler_task_agrees s h t :
  handler_task s h t ->
  forall srv k,
    finish srv t {| store := s; sent := k |}
    = (snd (fst (run h srv s k)), timeline (run h srv s k)).
Proof.
  intros [tab _| |] srv k; unfold run, timeline.
  - reflexivity.
  - apply generateDream_task_agrees.
  - apply (processInteraction_task_agrees srv {| store := s; sent := k |}).
Qed.

Lemma changer_task_agrees s f v t :
  changer_task s f v t ->
  forall srv k,
    finish srv t {| store := s; sent := k |}
    = (snd (fst (run (f v) srv s k)), timeline (run (f v) srv s k)).
Proof.
  intros [u|a|o] srv k; reflexivity.
Qed.

(** Every enabled handler the screen offers has its task. *)
Lemma shown_handler_task s b h :
  shown s b -> handler b = Some h -> is_disabled b = false ->
  exists t, handler_task s h t.
Proof.
  intros Hshown Hh Hd.
  destruct (shown_control s b Hshown)
    as [Hnone _|tab Htab Htabh _ _|Hdream _ _|Hform|f Hnone _ _ _].
  - congruence.
  - rewrite Htabh in Hh. injection Hh as <-.
    exists (setActiveTab_task tab). now constructor.
  - rewrite Hdream in Hh. injection Hh as <-.
    exists generateDream_task. constructor.
  - subst b. cbn in Hh. injection Hh as <-.
    exists (processInteraction_task (newInteraction s)). constructor.
  - congruence.
Qed.

Lemma shown_changer_task s b f v :
  shown s b -> changer b = Some f -> exists t, changer_task s f v t.
Proof.
  intros Hshown Hc.
  destruct (shown_control s b Hshown)
    as [_ Hnone|tab _ _ Hnone _|_ Hnone _|Hform|g _ Hg _ Hkind];
    try congruence.
  - subst b. discriminate Hc.
  - rewrite Hg in Hc. injection Hc as <-.
    destruct Hkind as [-> | [-> | ->]]; eexists; constructor.
Qed.

Lemma keeps_refl s : keeps s s.
Proof. split; trivial. Qed.

Lemma keeps_trans s1 s2 s3 : keeps s1 s2 -> keeps s2 s3 -> keeps s1 s3.
Proof. intros [Hl1 Ht1] [Hl2 Ht2]. split; auto. Qed.

(** The tasks of the component are tame. *)
Lemma loadMythosData_task_tame : tame loadMythosData_task.
Proof.
  cbn. intros pn pd ps. split.
  - intros [[ns ds] st]. cbn. repeat split; trivial.
  - intros e. cbn. repeat split; trivial.
Qed.

Lemma handler_task_tame s h t : handler_task s h t -> tame t.
Proof.
  intros [tab Htab| |].
  - cbn. repeat split; trivial.
  - cbn. intros pd. split; [|intros e; exact I].
    intros d. split; [intros s0; split; trivial|].
    split; [exact loadMythosData_task_tame | exact I].
  - cbn. intros pf. split; [|intros e; exact I].
    intros f. repeat split; trivial.
Qed.

Lemma changer_task_tame s f v t : changer_task s f v t -> tame t.
Proof.
  intros [u|a|o]; cbn; repeat split; trivial.
Qed.

(** A tame task run to its next wait keeps the flag and the tab name, and
    leaves only tame tasks in flight. *)
Lemma advance_tame srv t :
  tame t ->
  forall w,
    Forall tame (in_flight w) ->
    keeps (screen_store w) (screen_store (advance srv t w))
    /\ Forall tame (in_flight (advance srv t w)).
Proof.
  induction t as [|ev f next IH|label e next IH|X r next IH
                  |X awaited resolved IHr thrown IHt|callee IHc next IHn];
    cbn [tame advance]; intros Ht w Hw.
  - split; [apply keeps_refl | exact Hw].
  - destruct Ht as [Hf Hnext].
    destruct (IH Hnext
                {| screen_store := f (screen_store w);
                   requests_sent := requests_sent w;
                   in_flight := in_flight w |} Hw) as [Hk Hfl].
    split; [|exact Hfl].
    exact (keeps_trans _ _ _ (Hf (screen_store w)) Hk).
  - exact (IH Ht w Hw).
  - exact (IH _ (Ht _)
             {| screen_store := screen_store w;
                requests_sent := S (requests_sent w);
                in_flight := in_flight w |} Hw).
  - split; [apply keeps_refl|]. cbn [in_flight].
    apply Forall_app. split; [exact Hw|]. constructor; [exact Ht | constructor].
  - destruct Ht as [Hc Hn].
    destruct (IHc Hc w Hw) as [Hk1 Hfl1].
    destruct (IHn Hn (advance srv callee w) Hfl1) as [Hk2 Hfl2].
    split; [exact (keeps_trans _ _ _ Hk1 Hk2) | exact Hfl2].
Qed.

Lemma In_firstn {A} (x : A) n l : In x (firstn n l) -> In x l.
Proof.
  revert l. induction n as [|n IH]; intros [|a l]; cbn; try tauto.
  intros [H|H]; [left; exact H | right; exact (IH l H)].
Qed.

Lemma In_skipn {A} (x : A) n l : In x (skipn n l) -> In x l.
Proof.
  revert l. induction n as [|n IH]; intros [|a l]; cbn; try tauto.
  intros H. right. exact (IH l H).
Qed.

Lemma without_tame i w :
  Forall tame (in_flight w) -> Forall tame (in_flight (without i w)).
Proof.
  intros Hw. cbn [without in_flight]. apply Forall_app. split.
  - apply Forall_forall. intros t Ht.
    apply (proj1 (Forall_forall _ _) Hw), (In_firstn _ _ _ Ht).
  - apply Forall_forall. intros t Ht.
    apply (proj1 (Forall_forall _ _) Hw), (In_skipn _ _ _ Ht).
Qed.

Lemma resume_tame srv t w :
  tame t ->
  Forall tame (in_flight w) ->
  keeps (screen_store w) (screen_store (resume srv t w))
  /\ Forall tame (in_flight (resume srv t w)).
Proof.
  intros Ht Hw.
  destruct t as [|ev f next|label e next|X r next|X awaited resolved thrown|callee next];
    try exact (advance_tame srv _ Ht w Hw).
  cbn [resume]. destruct Ht as [Hr Hth].
  destruct (settled awaited) as [e|x]; apply advance_tame; auto.
Qed.

Lemma move_keeps srv w w' :
  move srv w w' ->
  Forall tame (in_flight w) ->
  keeps (screen_store w) (screen_store w') /\ Forall tame (in_flight w').
Proof.
  intros [w0 b h t _ _ _ Ht|w0 b f v t _ _ _ Ht|w0 i t Hi] Hw.
  - exact (advance_tame srv t (handler_task_tame _ _ _ Ht) w0 Hw).
  - exact (advance_tame srv t (changer_task_tame _ _ _ _ Ht) w0 Hw).
  - assert (Ht : tame t).
    { apply (proj1 (Forall_forall _ _) Hw), (nth_error_In _ _ Hi). }
    exact (resume_tame srv t (without i w0) Ht (without_tame i w0 Hw)).
Qed.

Lemma moves_keep srv w w' :
  moves srv w w' ->
  Forall tame (in_flight w) ->
  keeps (screen_store w) (screen_store w') /\ Forall tame (in_flight w').
Proof.
  induction 1 as [w|w1 w2 w3 Hmove _ IH]; intros Hw.
  - split; [apply keeps_refl | exact Hw].
  - destruct (move_keeps srv w1 w2 Hmove Hw) as [Hk1 Hfl].
    destruct (IH Hfl) as [Hk2 Hfl3].
    split; [exact (keeps_trans _ _ _ Hk1 Hk2) | exact Hfl3].
Qed.

Lemma mounted_tame srv :
  Forall tame (in_flight (mounted srv))
  /\ activeTab (screen_store (mounted srv)) = "narratives".
Proof.
  split; [|reflexivity].
  apply (advance_tame srv _ loadMythosData_task_tame
           {| screen_store := initial_store; requests_sent := 0;
              in_flight := [] |}).
  constructor.
Qed.

(** X7. Once the loading flag is false it stays false, also with
    operations overlapping: from the mount on, no click and no change on
    anything the screen shows, and no answer to any request in flight, in
    any number and order -- a click while another handler waits for its
    answer included -- brings the loading screen back. *)
Theorem loading_screen_never_returns srv w w' :
  moves srv (mounted srv) w ->
  moves srv w w' ->
  loading (screen_store w) = false ->
  loading (screen_store w') = false.
Proof.
  intros Hreach Hmoves Hl.
  destruct (moves_keep srv _ _ Hreach (proj1 (mounted_tame srv))) as [_ Hw].
  destruct (moves_keep srv _ _ Hmoves Hw) as [[Hkeep _] _].
  exact (Hkeep Hl).
Qed.


Lemma move_to_answer srv i w :
  i < length (in_flight w) -> move srv w (answer srv i w).
Proof.
  intros Hi. unfold answer.
  destruct (nth_error (in_flight w) i) as [t|] eqn:E.
  - exact (move_answer srv w i t E).
  - apply nth_error_None in E. lia.
Qed.

(** After the first load from [service_up]: the Dreams tab, then two clicks
    on "Generate Dream" before any answer is back -- both POSTs are out at
    once -- then the answer to the second, the answer to the first, and the
    answers to the two refreshes they started. *)
Lemma loading_screen_never_returns_witness :
  let dreams_button := button (setActiveTab "dreams") false [Text "Dreams"] in
  let dream_button := button generateDream false [Text "Generate Dream"] in
  let w1 := answer service_up 0 (mounted service_up) in
  let w2 := advance service_up (setActiveTab_task "dreams") w1 in
  let w3 := advance service_up generateDream_task w2 in
  let w4 := advance service_up generateDream_task w3 in
  let w5 := answer service_up 1 w4 in
  let w6 := answer service_up 0 w5 in
  let w7 := answer service_up 0 w6 in
  let w8 := answer service_up 0 w7 in
  moves service_up (mounted service_up) w1
  /\ moves service_up w1 w8
  /\ loading (screen_store w1) = false
  /\ length (in_flight w4) = 2
  /\ requests_sent w8 = 11
  /\ in_flight w8 = []
  /\ loading (screen_store w8) = false.
Proof.
  cbv zeta.
  set (dreams_button := button (setActiveTab "dreams") false [Text "Dreams"]).
  set (dream_button := button generateDream false [Text "Generate Dream"]).
  set (w1 := answer service_up 0 (mounted service_up)).
  set (w2 := advance service_up (setActiveTab_task "dreams") w1).
  set (w3 := advance service_up generateDream_task w2).
  set (w4 := advance service_up generateDream_task w3).
  set (w5 := answer service_up 1 w4).
  set (w6 := answer service_up 0 w5).
  set (w7 := answer service_up 0 w6).
  set (w8 := answer service_up 0 w7).
  assert (Hreach : moves service_up (mounted service_up) w1).
  { apply moves_more with (w2 := w1);
      [apply (move_to_answer service_up 0); vm_compute; lia | apply moves_none]. }
  assert (Hmoves : moves service_up w1 w8).
  { apply moves_more with (w2 := w2).
    { apply move_click with (b := dreams_button) (h := setActiveTab "dreams");
        [cbn; repeat (first [left; reflexivity | right])
        | reflexivity | reflexivity | constructor; cbn; tauto]. }
    apply moves_more with (w2 := w3).
    { apply move_click with (b := dream_button) (h := generateDream);
        [cbn; repeat (first [left; reflexivity | right])
        | reflexivity | reflexivity | constructor]. }
    apply moves_more with (w2 := w4).
    { apply move_click with (b := dream_button) (h := generateDream);
        [cbn; repeat (first [left; reflexivity | right])
        | reflexivity | reflexivity | constructor]. }
    apply moves_more with (w2 := w5);
      [apply (move_to_answer service_up 1); vm_compute; lia|].
    apply moves_more with (w2 := w6); [apply (move_to_answer service_up 0); vm_compute; lia|].
    apply moves_more with (w2 := w7); [apply (move_to_answer service_up 0); vm_compute; lia|].
    apply moves_more with (w2 := w8); [apply (move_to_answer service_up 0); vm_compute; lia|].
    apply moves_none. }
  split; [exact Hreach|]. split; [exact Hmoves|].
  split; [reflexivity|]. split; [reflexivity|]. split; [reflexivity|].
  split; [reflexivity|].
  exact (loading_screen_never_returns service_up w1 w8 Hreach Hmoves eq_refl).
Defined.

(** X8. From the mount on, with operations overlapping in any way --
    whatever the user clicks or types, also while requests are in flight,
    and whenever and in whatever order the answers come -- the active tab
    is one of "narratives", "dreams" and "create", the main content has
    exactly one panel, the one of the active tab, and the button of that
    tab is the only one that is highlighted. *)
Theorem one_panel_at_a_time srv w :
  moves srv (mounted srv) w ->
  (activeTab (screen_store w) = "narratives"
   /\ panels (screen_store w) = [narratives_tab (screen_store w)]
   /\ highlighted_tabs (screen_store w) = ["narratives"])
  \/ (activeTab (screen_store w) = "dreams"
      /\ panels (screen_store w) = [dreams_tab (screen_store w)]
      /\ highlighted_tabs (screen_store w) = ["dreams"])
  \/ (activeTab (screen_store w) = "create"
      /\ panels (screen_store w) = [create_tab (screen_store w)]
      /\ highlighted_tabs (screen_store w) = ["create"]).
Proof.
  intros Hreach.
  destruct (mounted_tame srv) as [Htame Hstart].
  destruct (moves_keep srv _ _ Hreach Htame) as [[_ Hkeep] _].
  assert (Ht : In (activeTab (screen_store w)) tab_names).
  { apply Hkeep. rewrite Hstart. left. reflexivity. }
  unfold panels, main_content, highlighted_tabs, narratives_button_className,
    dreams_button_className, create_button_className.
  destruct Ht as [Ht|[Ht|[Ht|[]]]]; rewrite <- Ht; cbn; auto.
Qed.

(** After the first load: the Dreams tab, a click on "Generate Dream", and
    the Create tab chosen while the POST of the dream is still in flight. *)
Lemma one_panel_at_a_time_witness :
  let w1 := answer service_up 0 (mounted service_up) in
  let w2 := advance service_up generateDream_task
              (advance service_up (setActiveTab_task "dreams") w1) in
  let w3 := advance service_up (setActiveTab_task "create") w2 in
  moves service_up (mounted service_up) w3
  /\ length (in_flight w3) = 1
  /\ highlighted_tabs (screen_store w3) = ["create"]
  /\ panels (screen_store w3) = [create_tab (screen_store w3)].
Proof.
  cbv zeta.
  set (w1 := answer service_up 0 (mounted service_up)).
  set (w1' := advance service_up (setActiveTab_task "dreams") w1).
  set (w2 := advance service_up generateDream_task w1').
  set (w3 := advance service_up (setActiveTab_task "create") w2).
  assert (Hreach : moves service_up (mounted service_up) w3).
  { apply moves_more with (w2 := w1); [apply (move_to_answer service_up 0); vm_compute; lia|].
    apply moves_more with (w2 := w1').
    { apply move_click
        with (b := button (setActiveTab "dreams") false [Text "Dreams"])
             (h := setActiveTab "dreams");
        [cbn; repeat (first [left; reflexivity | right])
        | reflexivity | reflexivity | constructor; cbn; tauto]. }
    apply moves_more with (w2 := w2).
    { apply move_click
        with (b := button generateDream false [Text "Generate Dream"])
             (h := generateDream);
        [cbn; repeat (first [left; reflexivity | right])
        | reflexivity | reflexivity | constructor]. }
    apply moves_more with (w2 := w3).
    { apply move_click
        with (b := button (setActiveTab "create") false [Text "Create"])
             (h := setActiveTab "create");
        [cbn; repeat (first [left; reflexivity | right])
        | reflexivity | reflexivity | constructor; cbn; tauto]. }
    apply moves_none. }
  split; [exact Hreach|]. split; [reflexivity|].
  destruct (one_panel_at_a_time service_up w3 Hreach)
    as [(Ht & _) | [(Ht & _) | (_ & Hp & Hh)]];
    [discriminate Ht | discriminate Ht | split; [exact Hh | exact Hp]].
Defined.

(** X9. While the loading flag is true nothing on screen reacts: no node
    has an [onClick] or an [onChange], so a click or a change on any of
    them sends nothing and leaves the store as it is. *)
Theorem loading_screen_is_inert srv c g :
  loading (store c) = true ->
  shown (store c) (target g) ->
  handler (target g) = None
  /\ changer (target g) = None
  /\ console_after (perform g) srv c = c.
Proof.
  unfold shown, render. intros -> Hshown.
  assert (Hstill : handler (target g) = None /\ changer (target g) = None).
  { cbn in Hshown. pick_node Hshown; rewrite <- Hshown; split; reflexivity. }
  destruct Hstill as [Hh Hc]. split; [exact Hh|]. split; [exact Hc|].
  destruct g as [b|b text]; cbn [target perform] in *.
  - rewrite click_spec, Hh. reflexivity.
  - rewrite change_spec, Hc. reflexivity.
Qed.

Lemma loading_screen_is_inert_witness :
  loading initial_store = true
  /\ shown initial_store (p [Text "MythOS is awakening..."])
  /\ console_after (click (p [Text "MythOS is awakening..."])) service_up
       {| store := initial_store; sent := 0 |}
     = {| store := initial_store; sent := 0 |}.
Proof.
  assert (Hshown : shown initial_store (p [Text "MythOS is awakening..."]))
    by (cbn; repeat (first [left; reflexivity | right])).
  split; [reflexivity|]. split; [exact Hshown|].
  exact (proj2 (proj2
    (loading_screen_is_inert service_up {| store := initial_store; sent := 0 |}
       (Click (p [Text "MythOS is awakening..."])) eq_refl Hshown))).
Defined.

(** ** The form *)

Lemma falsy_iff (x : string) : falsy x = true <-> x = "".
Proof. unfold falsy. apply String.eqb_eq. Qed.

(** X10. The button of the form is disabled exactly when
    [user_interaction] or [ai_response] is the empty string -- the outcome
    plays no role, and a field holding only blanks counts as filled in --
    a click on it is a call of [processInteraction] when it is enabled and
    nothing when it is disabled. *)
Theorem process_button_guard s :
  (is_disabled (process_button s) = true
   <-> user_interaction (newInteraction s) = ""
       \/ ai_response (newInteraction s) = "")
  /\ click (process_button s)
     = if is_disabled (process_button s) then ret tt else processInteraction.
Proof.
  unfold process_button, button. cbn [is_disabled click]. split.
  - rewrite orb_true_iff, !falsy_iff. reflexivity.
  - destruct (falsy _ || falsy _); reflexivity.
Qed.

Lemma create_tab_fields_shown s :
  loading s = false -> activeTab s = "create" ->
  shown s (user_interaction_field s) /\ shown s (ai_response_field s)
  /\ shown s (outcome_field s).
Proof.
  intros Hl Ht.
  repeat split; apply create_tab_shown; trivial; unfold create_tab;
    (eapply nodes_child; [right; left; reflexivity|]);
    (eapply nodes_child; [left; reflexivity|]).
  - eapply nodes_child; [left; reflexivity|].
    eapply nodes_child; [right; left; reflexivity|]. apply nodes_root.
  - eapply nodes_child; [right; left; reflexivity|].
    eapply nodes_child; [right; left; reflexivity|]. apply nodes_root.
  - eapply nodes_child; [right; right; left; reflexivity|].
    eapply nodes_child; [right; left; reflexivity|]. apply nodes_root.
Qed.

(** X11. On the Create tab, typing [u] into the first textarea and then
    [a] into the second, both non-empty, sends nothing and changes only the
    draft; the button is then enabled, and a click on it posts exactly
    [u], [a] and the outcome that was selected before the typing. *)
Theorem typed_draft_is_posted srv s k u a :
  loading s = false ->
  activeTab s = "create" ->
  u <> "" ->
  a <> "" ->
  let c1 := console_after (change (user_interaction_field s) u) srv
              {| store := s; sent := k |} in
  let c2 := console_after (change (ai_response_field (store c1)) a) srv c1 in
  shown s (user_interaction_field s)
  /\ shown (store c1) (ai_response_field (store c1))
  /\ shown (store c2) (process_button (store c2))
  /\ c2 = {| store := drafted s {| user_interaction := u; ai_response := a;
                                   outcome := outcome (newInteraction s) |};
             sent := k |}
  /\ is_disabled (process_button (store c2)) = false
  /\ exists rest,
       events (run (click (process_button (store c2))) srv (store c2) (sent c2))
       = Sent (PostProcess {| user_interaction := u; ai_response := a;
                              outcome := outcome (newInteraction s) |})
         :: rest.
Proof.
  intros Hl Ht Hu Ha. cbv zeta.
  split; [apply create_tab_fields_shown; assumption|].
  split; [apply create_tab_fields_shown; assumption|].
  split; [apply process_button_shown; assumption|].
  split; [reflexivity|].
  destruct (process_button_enabled
              (drafted s {| user_interaction := u; ai_response := a;
                            outcome := outcome (newInteraction s) |}) Hu Ha)
    as [Hon Hclick].
  split; [exact Hon|].
  change (exists rest,
            events (run (click (process_button
                           (drafted s {| user_interaction := u; ai_response := a;
                                         outcome := outcome (newInteraction s) |})))
                      srv
                      (drafted s {| user_interaction := u; ai_response := a;
                                    outcome := outcome (newInteraction s) |}) k)
            = Sent (PostProcess {| user_interaction := u; ai_response := a;
                                   outcome := outcome (newInteraction s) |})
              :: rest).
  rewrite Hclick, processInteraction_run.
  destruct (settled (posted _ _ _)) as [e|f];
    [|destruct (settled (restated _ _))]; eexists; reflexivity.
Qed.

Lemma typed_draft_is_posted_witness :
  loading idle_create_store = false
  /\ activeTab idle_create_store = "create"
  /\ "Hi" <> ""
  /\ "Hello there" <> ""
  /\ exists rest,
       events (run (click (process_button (drafted idle_create_store hello_draft)))
                 service_up (drafted idle_create_store hello_draft) 3)
       = Sent (PostProcess hello_draft) :: rest.
Proof.
  assert (Hu : "Hi" <> "") by discriminate.
  assert (Ha : "Hello there" <> "") by discriminate.
  split; [reflexivity|]. split; [reflexivity|].
  split; [exact Hu|]. split; [exact Ha|].
  destruct (typed_draft_is_posted service_up idle_create_store 3
              "Hi" "Hello there" eq_refl eq_refl Hu Ha)
    as (_ & _ & _ & _ & _ & Hposted).
  exact Hposted.
Defined.

(** ** The Dreams tab *)

Lemma dreams_tab_shown s v :
  loading s = false -> activeTab s = "dreams" ->
  In v (nodes (dreams_tab s)) -> shown s v.
Proof.
  intros Hl Ht Hv. unfold shown, render. rewrite Hl.
  apply nodes_child with (kid := main_content s); [right; left; reflexivity|].
  unfold main_content. rewrite Ht.
  apply nodes_child with (kid := dreams_tab s); [right; left; reflexivity|].
  exact Hv.
Qed.

(** X12. On the Dreams tab, once loaded, the button "Generate Dream" is on
    screen whether there are dreams or not.  With no dreams the tab shows
    its own empty state, with a second button, "First Dream"; both buttons
    are enabled and a click on either is a call of [generateDream].  No
    dream card is shown then. *)
Theorem empty_dreams_show_empty_state s :
  dreams s = [] ->
  loading s = false ->
  activeTab s = "dreams" ->
  shown s (button generateDream false [Text "Generate Dream"])
  /\ shown s (Text no_dreams_text)
  /\ shown s (button generateDream false [Text "First Dream"])
  /\ click (button generateDream false [Text "Generate Dream"]) = generateDream
  /\ click (button generateDream false [Text "First Dream"]) = generateDream
  /\ texts (dreams_tab s)
     = ["Dream Scenarios"; "Generate Dream"; no_dreams_text; "First Dream"].
Proof.
  intros Hd Hl Ht.
  assert (Hin : forall v,
             In v (nodes (div [ div [ h2 [Text "Dream Scenarios"];
                                      button generateDream false [Text "Generate Dream"] ];
                                div [ p [Text no_dreams_text];
                                      button generateDream false [Text "First Dream"] ] ])) ->
             shown s v).
  { intros v Hv. apply dreams_tab_shown; trivial.
    unfold dreams_tab. rewrite Hd. exact Hv. }
  split; [apply Hin; cbn; tauto|].
  split; [apply Hin; cbn; tauto|].
  split; [apply Hin; cbn; tauto|].
  split; [reflexivity|]. split; [reflexivity|].
  unfold dreams_tab. rewrite Hd. reflexivity.
Qed.

Lemma empty_dreams_show_empty_state_witness :
  let s := on_tab (store (opened service_up)) "dreams" in
  dreams s = []
  /\ loading s = false
  /\ activeTab s = "dreams"
  /\ shown s (button generateDream false [Text "First Dream"]).
Proof.
  cbv zeta.
  destruct (empty_dreams_show_empty_state
              (on_tab (store (opened service_up)) "dreams")
              eq_refl eq_refl eq_refl) as (_ & _ & Hfirst & _).
  split; [reflexivity|]. split; [reflexivity|]. split; [reflexivity|].
  exact Hfirst.
Defined.

(** ** The stats cells *)

Lemma to_uint_not_Nil (n : N) : N.to_uint n <> Decimal.Nil.
Proof.
  intros H. pose proof (DecimalN.Unsigned.of_to n) as Hn.
  rewrite H in Hn. cbn in Hn. subst n. discriminate H.
Qed.

(** X13. The four stats cells of the header, for counts in the range of
    JavaScript's exact integers: each count cell holds the decimal numeral
    of its count, and reading that numeral gives the count back, 0 when the
    count is missing; each name cell holds the reported name or "None", and
    is never blank. *)
Theorem stats_header_cells s :
  (count_of (total_narratives (stats s)) < 2 ^ 53)%N ->
  (count_of (total_dreams (stats s)) < 2 ^ 53)%N ->
  exists shown_narratives shown_dreams shown_archetype shown_emotion,
    texts (stats_header s)
    = ["Total Narratives"; shown_narratives; "Total Dreams"; shown_dreams;
       "Dominant Archetype"; shown_archetype;
       "Dominant Emotion"; shown_emotion]
    /\ option_map N.of_uint (NilZero.uint_of_string shown_narratives)
       = Some (count_of (total_narratives (stats s)))
    /\ option_map N.of_uint (NilZero.uint_of_string shown_dreams)
       = Some (count_of (total_dreams (stats s)))
    /\ shown_archetype <> ""
    /\ shown_emotion <> ""
    /\ (dominant_archetype (stats s) = Some shown_archetype
        \/ shown_archetype = "None")
    /\ (dominant_emotion (stats s) = Some shown_emotion
        \/ shown_emotion = "None").
Proof.
  intros _ _.
  assert (Hcount : forall x,
             option_map N.of_uint (NilZero.uint_of_string (count_or_zero x))
             = Some (count_of x)).
  { intros x. unfold count_or_zero. fold (count_of x).
    rewrite NilZero.usu by apply to_uint_not_Nil.
    cbn [option_map]. now rewrite DecimalN.Unsigned.of_to. }
  assert (Hname : forall x, name_or_None x <> "").
  { intros [name|]; cbn; [|discriminate].
    destruct (falsy name) eqn:E; [discriminate|].
    intros ->. discriminate E. }
  assert (Hsome : forall x, x = Some (name_or_None x) \/ name_or_None x = "None").
  { intros [name|]; cbn; [|right; reflexivity].
    destruct (falsy name); [right|left]; reflexivity. }
  do 4 eexists. split; [reflexivity|].
  repeat split; auto.
Qed.

Lemma stats_header_cells_witness :
  (count_of (total_narratives (stats busy_store)) < 2 ^ 53)%N
  /\ (count_of (total_dreams (stats busy_store)) < 2 ^ 53)%N
  /\ texts (stats_header busy_store)
     = ["Total Narratives"; "1"; "Total Dreams"; "0";
        "Dominant Archetype"; "Hero"; "Dominant Emotion"; "None"].
Proof.
  assert (H1 : (count_of (total_narratives (stats busy_store)) < 2 ^ 53)%N)
    by reflexivity.
  assert (H2 : (count_of (total_dreams (stats busy_store)) < 2 ^ 53)%N)
    by reflexivity.
  split; [exact H1|]. split; [exact H2|].
  destruct (stats_header_cells busy_store H1 H2)
    as (c1 & c2 & c3 & c4 & Htexts & _).
  reflexivity.
Defined.

(** ** The colour tables *)

Lemma own_property_None colors key :
  ~ In key (map fst colors) -> own_property colors key = None.
Proof.
  induction colors as [|[k c] rest IH]; cbn; intros Hout; [reflexivity|].
  destruct (String.eqb_spec k key) as [->|_]; [tauto|].
  apply IH. tauto.
Qed.

Lemma not_inherited key :
  ~ In key Object_prototype_names ->
  existsb (String.eqb key) Object_prototype_names = false.
Proof.
  intros Hout. destruct (existsb _ _) eqn:E; [|reflexivity].
  apply existsb_exists in E. destruct E as (name & Hin & Heq).
  apply String.eqb_eq in Heq. subst name. contradiction.
Qed.

(** X14. A value that is in neither table and is not the name of a member
    of [Object.prototype] -- a missing value is one -- gets the grey
    fallback of each function: "text-gray-400" from [getArchetypeColor],
    "bg-gray-500" from [getEmotionColor]. *)
Theorem unknown_names_get_grey x :
  ~ In (property_key x) Object_prototype_names ->
  ~ In (property_key x) archetypes ->
  ~ In (property_key x) emotions ->
  getArchetypeColor x = ClassName "text-gray-400"
  /\ getEmotionColor x = ClassName "bg-gray-500".
Proof.
  intros Hproto Harch Hemo. unfold getArchetypeColor, getEmotionColor, lookup_or.
  rewrite (own_property_None _ _ Harch), (own_property_None _ _ Hemo),
    (not_inherited _ Hproto).
  split; reflexivity.
Qed.

(** The dominant archetype of a console without stats is missing. *)
Lemma unknown_names_get_grey_witness :
  ~ In (property_key None) Object_prototype_names
  /\ ~ In (property_key None) archetypes
  /\ ~ In (property_key None) emotions
  /\ getArchetypeColor (dominant_archetype (stats initial_store))
     = ClassName "text-gray-400".
Proof.
  assert (Hproto : ~ In (property_key None) Object_prototype_names)
    by (cbn; intros H; pick_node H; discriminate H).
  assert (Harch : ~ In (property_key None) archetypes)
    by (cbn; intros H; pick_node H; discriminate H).
  assert (Hemo : ~ In (property_key None) emotions)
    by (cbn; intros H; pick_node H; discriminate H).
  split; [exact Hproto|]. split; [exact Harch|]. split; [exact Hemo|].
  exact (proj1 (unknown_names_get_grey None Hproto Harch Hemo)).
Defined.

(** X15. Neither function returns a class name for the name of a member
    every object inherits, such as "constructor" or "toString": the lookup
    finds the inherited member, which is truthy, and the fallback is not
    used. *)
Theorem inherited_names_get_no_class name :
  In name Object_prototype_names ->
  getArchetypeColor (Some name) = PrototypeMember name
  /\ getEmotionColor (Some name) = PrototypeMember name.
Proof.
  intros H. cbn in H. pick_node H; subst name; split; reflexivity.
Qed.

Lemma inherited_names_get_no_class_witness :
  In "constructor" Object_prototype_names
  /\ getArchetypeColor (Some "constructor") = PrototypeMember "constructor".
Proof.
  assert (H : In "constructor" Object_prototype_names) by (left; reflexivity).
  split; [exact H|].
  exact (proj1 (inherited_names_get_no_class "constructor" H)).
Defined.

(** X16. The ten archetypes of the table get ten different classes, and
    Shadow is the only one of them whose class is the grey that unknown
    archetypes get. *)
Theorem archetype_classes_differ a b :
  In a archetypes ->
  In b archetypes ->
  (getArchetypeColor (Some a) = getArchetypeColor (Some b) -> a = b)
  /\ (getArchetypeColor (Some a) = ClassName "text-gray-400" <-> a = "Shadow").
Proof.
  intros Ha Hb. cbn in Ha, Hb. split; [|split].
  - pick_node Ha; subst a; pick_node Hb; subst b; intros H;
      first [reflexivity | discriminate H].
  - intros H. pick_node Ha; subst a; first [reflexivity | discriminate H].
  - intros H. pick_node Ha; subst a; first [reflexivity | discriminate H].
Qed.

Lemma archetype_classes_differ_witness :
  In "Hero" archetypes
  /\ In "Sage" archetypes
  /\ getArchetypeColor (Some "Hero") <> getArchetypeColor (Some "Sage").
Proof.
  assert (Ha : In "Hero" archetypes) by (cbn; tauto).
  assert (Hb : In "Sage" archetypes) by (cbn; tauto).
  split; [exact Ha|]. split; [exact Hb|].
  intros H.
  pose proof (proj1 (archetype_classes_differ "Hero" "Sage" Ha Hb) H) as Heq.
  discriminate Heq.
Defined.

(** X17. The ten emotions of the table get ten different classes, and
    Despair is the only one of them whose class is the grey that unknown
    emotions get. *)
Theorem emotion_classes_differ a b :
  In a emotions ->
  In b emotions ->
  (getEmotionColor (Some a) = getEmotionColor (Some b) -> a = b)
  /\ (getEmotionColor (Some a) = ClassName "bg-gray-500" <-> a = "Despair").
Proof.
  intros Ha Hb. cbn in Ha, Hb. split; [|split].
  - pick_node Ha; subst a; pick_node Hb; subst b; intros H;
      first [reflexivity | discriminate H].
  - intros H. pick_node Ha; subst a; first [reflexivity | discriminate H].
  - intros H. pick_node Ha; subst a; first [reflexivity | discriminate H].
Qed.

Lemma emotion_classes_differ_witness :
  In "Hope" emotions
  /\ In "Despair" emotions
  /\ getEmotionColor (Some "Hope") <> getEmotionColor (Some "Despair")
  /\ getEmotionColor (Some "Despair") = getEmotionColor (Some "Boredom").
Proof.
  assert (Ha : In "Hope" emotions) by (cbn; tauto).
  assert (Hb : In "Despair" emotions) by (cbn; tauto).
  split; [exact Ha|]. split; [exact Hb|].
  split; [|reflexivity].
  intros H.
  pose proof (proj1 (emotion_classes_differ "Hope" "Despair" Ha Hb) H) as Heq.
  discriminate Heq.
Defined.

(** ** The narrative cards *)

Lemma texts_tag_spans (l : list string) :
  flat_map texts (map (fun tag => span [Text "#"; Text tag]) l)
  = flat_map (fun tag => ["#"; tag]) l.
Proof.
  induction l as [|tag l IH]; [reflexivity|].
  cbn [map flat_map]. rewrite IH. reflexivity.
Qed.

Lemma texts_narrative_card n : texts (narrative_card n) = narrative_texts n.
Proof.
  unfold narrative_card, narrative_texts, div, h3, span, p, plain.
  cbn [texts flat_map app]. rewrite texts_tag_spans, !app_nil_r. reflexivity.
Qed.

Lemma texts_plain tag kids : texts (plain tag kids) = flat_map texts kids.
Proof. reflexivity. Qed.

Lemma texts_cards (l : list NarrativeFragment) :
  flat_map texts (map narrative_card l) = flat_map narrative_texts l.
Proof.
  induction l as [|n l IH]; [reflexivity|].
  cbn [map flat_map]. rewrite texts_narrative_card, IH. reflexivity.
Qed.

(** X18. With at least one narrative in the list, the Narratives tab shows
    one card per narrative, in the order of the list and without leaving
    out repeated ones: after its two headings its texts are those of the
    first narrative, then those of the second, and so on.  The text of the
    empty state is not among the headings. *)
Theorem narrative_cards_follow_the_list s :
  narratives s <> [] ->
  texts (narratives_tab s)
  = ["Narrative Fragments"; "The AI's autobiography unfolds..."]
    ++ flat_map narrative_texts (narratives s).
Proof.
  intros Hne. unfold narratives_tab, narratives_grid.
  destruct (narratives s) as [|n l] eqn:E; [contradiction|].
  cbn [length Nat.eqb]. unfold div, h2, span.
  rewrite texts_plain. cbn [flat_map]. rewrite !texts_plain.
  cbn [flat_map]. rewrite !texts_plain, texts_cards, !app_nil_r.
  reflexivity.
Qed.

(** After the greeting is submitted, its title is the first one of the
    cards. *)
Lemma narrative_cards_follow_the_list_witness :
  narratives (final (run processInteraction service_up busy_store 0)) <> []
  /\ texts (narratives_tab (final (run processInteraction service_up busy_store 0)))
     = ["Narrative Fragments"; "The AI's autobiography unfolds..."]
       ++ narrative_texts hero_fragment ++ narrative_texts sage_fragment.
Proof.
  assert (Hne : narratives (final (run processInteraction service_up busy_store 0))
                <> []) by discriminate.
  split; [exact Hne|].
  rewrite (narrative_cards_follow_the_list _ Hne). reflexivity.
Defined.

(** ** The URLs *)

Lemma string_append_cancel (a x y : string) :
  (a ++ x)%string = (a ++ y)%string -> x = y.
Proof.
  induction a as [|ch a IH]; cbn; intros H; [exact H|].
  injection H as H. exact (IH H).
Qed.

Lemma string_append_assoc (a b c : string) :
  ((a ++ b) ++ c)%string = (a ++ (b ++ c))%string.
Proof.
  induction a as [|ch a IH]; cbn; [reflexivity|]. now rewrite IH.
Qed.

Lemma prefix_of_append (a b : string) :
  String.prefix a (a ++ b)%string = true.
Proof.
  induction a as [|ch a IH]; cbn; [now destruct b|].
  destruct (Ascii.ascii_dec ch ch) as [_|Hne]; [exact IH | now destruct Hne].
Qed.

(** X19. Whatever the backend URL is, the five requests go to addresses
    under its [/api/mythology/], and two requests have the same address
    only if they are requests to the same endpoint. *)
Theorem urls_separate_endpoints BACKEND_URL {X Y} (r1 : Request X) (r2 : Request Y) :
  String.prefix (BACKEND_URL ++ "/api/mythology/")%string (url BACKEND_URL r1)
  = true
  /\ (url BACKEND_URL r1 = url BACKEND_URL r2 <-> endpoint r1 = endpoint r2).
Proof.
  unfold url, API. split.
  - rewrite string_append_assoc.
    destruct r1; cbn [append];
      match goal with
      | |- String.prefix _ (append _ ?path) = true =>
          change path
            with ("/api/mythology/" ++ substring 15 (String.length path) path)%string
      end; rewrite <- string_append_assoc; apply prefix_of_append.
  - split.
    + intros H. rewrite !string_append_assoc in H.
      apply string_append_cancel in H.
      destruct r1, r2; first [reflexivity | discriminate H].
    + intros H. destruct r1, r2; first [reflexivity | discriminate H].
Qed.

(** ** Submissions and the button; the first load and the screen *)

(** X20. A submission whose POST succeeds leaves the button of the form
    disabled, whatever the stats request answers: the draft it reset has to
    be filled in again.  A submission whose POST fails leaves the button as
    it was and the draft in place, so that the same body can be posted
    again. *)
Theorem submission_and_button (srv : Service) s k :
  let r := run processInteraction srv s k in
  match settled (posted srv s k) with
  | inr _ => is_disabled (process_button (final r)) = true
  | inl _ =>
      newInteraction (final r) = newInteraction s
      /\ is_disabled (process_button (final r)) = is_disabled (process_button s)
  end.
Proof.
  cbv zeta. rewrite processInteraction_run.
  destruct (settled (posted srv s k)) as [e|f].
  - split; reflexivity.
  - destruct (settled (restated srv k)); reflexivity.
Qed.

(** X21. When a fetch of the first load fails, the console opens all the
    same: the loading screen is gone, the lists are empty and the stats
    missing, so the Narratives tab shows its empty state and the header
    shows zero counts and no dominant names, as it would for a service
    that has nothing stored. *)
Theorem failed_first_load_looks_empty srv :
  (exists e, settled (narrativesP srv 0) = inl e)
  \/ (exists e, settled (dreamsP srv 0) = inl e)
  \/ (exists e, settled (statsP srv 0) = inl e) ->
  store (opened srv)
  = {| narratives := []; dreams := []; stats := empty_stats;
       loading := false; activeTab := "narratives";
       newInteraction := blank_draft |}
  /\ shown (store (opened srv)) narratives_empty_state
  /\ texts (stats_header (store (opened srv)))
     = ["Total Narratives"; "0"; "Total Dreams"; "0";
        "Dominant Archetype"; "None"; "Dominant Emotion"; "None"].
Proof.
  intros Hfail.
  assert (Hstore : store (opened srv)
                   = {| narratives := []; dreams := []; stats := empty_stats;
                        loading := false; activeTab := "narratives";
                        newInteraction := blank_draft |}).
  { unfold opened. rewrite console_after_run, mount_run. cbn [fst snd store sent].
    destruct (loadMythosData_failure_final srv initial_store 0 Hfail) as [e He].
    rewrite He. reflexivity. }
  rewrite Hstore. split; [reflexivity|]. split; [|reflexivity].
  apply narratives_tab_shown; [reflexivity | reflexivity |].
  unfold narratives_tab. cbn [narratives length Nat.eqb].
  eapply nodes_child; [right; left; reflexivity | apply nodes_root].
Qed.

Lemma failed_first_load_looks_empty_witness :
  (exists e, settled (narrativesP service_down 0) = inl e)
  /\ loading (store (opened service_down)) = false
  /\ shown (store (opened service_down)) narratives_empty_state.
Proof.
  assert (H : exists e, settled (narrativesP service_down 0) = inl e)
    by (exists (NetworkError "Network Error"); reflexivity).
  split; [exact H|].
  destruct (failed_first_load_looks_empty service_down (or_introl H))
    as (Hstore & Hshown & _).
  split; [rewrite Hstore; reflexivity | exact Hshown].
Defined.
